(** * google_auth.py: the OAuth2 helper of the google-workspace skill

    A shallow embedding of [skills/google-workspace/scripts/google_auth.py]
    and of the parts of the Python standard library it calls
    ([urllib.parse.quote_plus], [urlencode], [unquote], [parse_qsl],
    [parse_qs], [json.loads]), followed by the properties the
    specification states about the callback listener, the authorization
    URL, the token exchanger and the command line.

    Representation of text.  A Python [str] is represented by the bytes of
    its UTF-8 encoding, as a [string].  [quote_plus] encodes to UTF-8 before
    it escapes, so on this representation it works byte by byte.  [unquote]
    percent-decodes to bytes and then decodes them as UTF-8 with
    [errors='replace']; on this representation the second step is the
    identity whenever the decoded bytes are well-formed UTF-8, and it is
    not modelled where they are not. *)

From Stdlib Require Import String Ascii List ZArith NArith Bool Lia DecimalString.
Import ListNotations.
Open Scope string_scope.
Open Scope Z_scope.

(** ** Characters and strings *)

Module Str.

(** One-character strings that a literal cannot hold conveniently. *)
Definition DQ : string := String "034"%char EmptyString.
Definition LF : string := String "010"%char EmptyString.

(** [c in s] for a one-character [c]. *)
Fixpoint contains_char (c : ascii) (s : string) : bool :=
  match s with
  | EmptyString => false
  | String d s' => Ascii.eqb d c || contains_char c s'
  end.

(** [s.replace(a, b)] for one-character [a] and [b]. *)
Fixpoint replace_char (a b : ascii) (s : string) : string :=
  match s with
  | EmptyString => EmptyString
  | String d s' => String (if Ascii.eqb d a then b else d) (replace_char a b s')
  end.

(** [s.split(sep)] for a one-character [sep]: never the empty list. *)
Fixpoint split (sep : ascii) (s : string) : list string :=
  match s with
  | EmptyString => [EmptyString]
  | String d s' =>
      if Ascii.eqb d sep then EmptyString :: split sep s'
      else match split sep s' with
           | [] => [String d EmptyString]
           | h :: t => String d h :: t
           end
  end.

(** [s.split(sep, 1)]: the text before the first [sep] and, when there is
    a [sep], the text after it. *)
Fixpoint split1 (sep : ascii) (s : string) : string * option string :=
  match s with
  | EmptyString => (EmptyString, None)
  | String d s' =>
      if Ascii.eqb d sep then (EmptyString, Some s')
      else let (h, t) := split1 sep s' in (String d h, t)
  end.

(** [sep.join(l)]. *)
Definition join (sep : string) (l : list string) : string := String.concat sep l.

(** [needle in s] for strings. *)
Fixpoint is_substring (needle s : string) : bool :=
  String.prefix needle s ||
  match s with
  | EmptyString => false
  | String _ s' => is_substring needle s'
  end.

Definition is_empty (s : string) : bool :=
  match s with EmptyString => true | String _ _ => false end.

End Str.

(** ** urllib.parse *)

Module Urllib.

Definition code (c : ascii) : N := N_of_ascii c.

(** [_ALWAYS_SAFE]: ASCII letters, digits and [_.-~]. *)
Definition always_safe (c : ascii) : bool :=
  let n := code c in
  ((65 <=? n) && (n <=? 90) || (97 <=? n) && (n <=? 122) ||
   (48 <=? n) && (n <=? 57) ||
   (n =? 95) || (n =? 46) || (n =? 45) || (n =? 126))%N.

(** One upper-case hexadecimal digit, as in ['%{:02X}'.format(b)]. *)
Definition hex_digit (n : N) : ascii :=
  (if n <? 10 then ascii_of_N (48 + n) else ascii_of_N (55 + n))%N.

(** The value of a hexadecimal digit of either case ([_hexdig]). *)
Definition hex_value (c : ascii) : option N :=
  let n := code c in
  (if (48 <=? n) && (n <=? 57) then Some (n - 48)
   else if (65 <=? n) && (n <=? 70) then Some (n - 55)
   else if (97 <=? n) && (n <=? 102) then Some (n - 87)
   else None)%N.

(** The quoter of [quote_from_bytes]: a safe byte stands for itself, any
    other byte [b] becomes [%XX]. *)
Definition quoter (safe : string) (c : ascii) : string :=
  if always_safe c || Str.contains_char c safe then String c EmptyString
  else String "%" (String (hex_digit (code c / 16))
                     (String (hex_digit (code c mod 16)) EmptyString)).

(** [quote(s, safe)]. *)
Fixpoint quote (safe : string) (s : string) : string :=
  match s with
  | EmptyString => EmptyString
  | String c s' => quoter safe c ++ quote safe s'
  end.

(** [quote_plus(s)] with the default [safe='']: a string without a space is
    quoted as it is; otherwise the space is added to the safe characters
    and the spaces of the result are replaced by [+]. *)
Definition quote_plus (s : string) : string :=
  if Str.contains_char " " s
  then Str.replace_char " " "+" (quote " " s)
  else quote "" s.

(** [urlencode(query)] for a dict of strings, in insertion order. *)
Definition urlencode (query : list (string * string)) : string :=
  Str.join "&" (map (fun kv => quote_plus (fst kv) ++ "=" ++ quote_plus (snd kv)) query).

(** One item of [unquote_to_bytes]: the text that followed a [%].  Two
    hexadecimal digits give a byte; anything else keeps the [%]. *)
Definition unquote_item (item : string) : string :=
  match item with
  | String h1 (String h2 rest) =>
      match hex_value h1, hex_value h2 with
      | Some a, Some b => String (ascii_of_N (16 * a + b)) rest
      | _, _ => String "%" item
      end
  | _ => String "%" item
  end.

(** [unquote(s)]: split at [%], keep the first piece, decode the others. *)
Definition unquote (s : string) : string :=
  match Str.split "%" s with
  | [] => EmptyString
  | first :: items => first ++ String.concat "" (map unquote_item items)
  end.

(** One field of [parse_qsl]. *)
Definition parse_field (keep_blank_values : bool) (name_value : string)
  : option (string * string) :=
  if Str.is_empty name_value then None
  else
    let (n, v) := Str.split1 "=" name_value in
    match v with
    | None =>
        if keep_blank_values
        then Some (unquote (Str.replace_char "+" " " n), EmptyString)
        else None
    | Some v =>
        if negb (Str.is_empty v) || keep_blank_values
        then Some (unquote (Str.replace_char "+" " " n),
                   unquote (Str.replace_char "+" " " v))
        else None
    end.

Fixpoint collect {A} (l : list (option A)) : list A :=
  match l with
  | [] => []
  | None :: t => collect t
  | Some a :: t => a :: collect t
  end.

(** [parse_qsl(qs, keep_blank_values)] with the separator [&]. *)
Definition parse_qsl (keep_blank_values : bool) (qs : string)
  : list (string * string) :=
  collect (map (parse_field keep_blank_values) (Str.split "&" qs)).

End Urllib.

(** ** Python dicts with string keys

    A dict keeps its keys in insertion order and holds each key once. *)

Module Dict.

Definition t (V : Type) : Type := list (string * V).

(** [d.get(k)]. *)
Fixpoint get {V} (k : string) (d : t V) : option V :=
  match d with
  | [] => None
  | (k', v) :: d' => if String.eqb k' k then Some v else get k d'
  end.

(** [k in d]. *)
Definition mem {V} (k : string) (d : t V) : bool :=
  match get k d with Some _ => true | None => false end.

(** [d[k] = v]: an existing key keeps its place. *)
Fixpoint set {V} (k : string) (v : V) (d : t V) : t V :=
  match d with
  | [] => [(k, v)]
  | (k', v') :: d' =>
      if String.eqb k' k then (k', v) :: d' else (k', v') :: set k v d'
  end.

(** [dict(pairs)]: later pairs overwrite earlier ones. *)
Definition of_pairs {V} (pairs : list (string * V)) : t V :=
  fold_left (fun d kv => set (fst kv) (snd kv) d) pairs [].

End Dict.

Module UrllibQs.
Import Urllib.

(** The loop of [parse_qs]: a name seen before gets the value appended to
    its list, a new name starts a list. *)
Definition parse_qs_step (parsed_result : Dict.t (list string))
  (nv : string * string) : Dict.t (list string) :=
  match Dict.get (fst nv) parsed_result with
  | Some values => Dict.set (fst nv) (values ++ [snd nv])%list parsed_result
  | None => Dict.set (fst nv) [snd nv] parsed_result
  end.

(** [parse_qs(qs)] with its defaults: [keep_blank_values=False]. *)
Definition parse_qs (qs : string) : Dict.t (list string) :=
  fold_left parse_qs_step (parse_qsl false qs) [].

End UrllibQs.

(** ** The callback listener *)

Module Listener.
Import Str Urllib UrllibQs.

(** The result of [urlparse(self.path)]: the request target of a GET
    request, split into its six components.  [do_GET] reads [path] and
    [query]. *)
Record ParseResult := mkParseResult {
  scheme : string;
  netloc : string;
  path : string;
  params : string;
  query : string;
  fragment : string
}.

(** A request for [path?query], as [urlparse] splits an origin-form
    target. *)
Definition target (p q : string) : ParseResult :=
  mkParseResult "" "" p "" q "".

(** The two fields [run_auth_flow] adds to the [HTTPServer] object. *)
Record HTTPServer := mkServer {
  auth_code : option string;
  auth_error : option string
}.

(** What the handler writes to the connection: the status line of
    [send_response], the headers of [send_header], and the body written
    to [wfile]. *)
Record Reply := mkReply {
  status : Z;
  headers : list (string * string);
  body : string
}.

Definition success_page : string :=
  LF ++
  "                    <html><body style=" ++ DQ ++
  "font-family: sans-serif; text-align: center; padding: 50px;" ++ DQ ++ ">" ++ LF ++
  "                    <h1>Authorization Successful!</h1>" ++ LF ++
  "                    <p>You can close this window and return to the terminal.</p>" ++ LF ++
  "                    </body></html>" ++ LF ++
  "                ".

Definition error_page (reason : string) : string :=
  "<html><body><h1>Error</h1><p>" ++ reason ++ "</p></body></html>".

(** [l[0]].  Every list stored by [parse_qs] has an element
    ([parse_qs_values_nonempty] below), so the default is never taken. *)
Definition first (l : list string) : string := hd EmptyString l.

(** [OAuthCallbackHandler.do_GET]. *)
Definition do_GET (parsed : ParseResult) (server : HTTPServer)
  : HTTPServer * Reply :=
  if String.eqb (path parsed) "/callback" then
    let params := parse_qs (query parsed) in
    match Dict.get "code" params with
    | Some codes =>
        (mkServer (Some (first codes)) (auth_error server),
         mkReply 200 [("Content-Type", "text/html")] success_page)
    | None =>
        match Dict.get "error" params with
        | Some errors =>
            let reason :=
              first (match Dict.get "error_description" params with
                     | Some descriptions => descriptions
                     | None => errors
                     end) in
            (mkServer (auth_code server) (Some reason),
             mkReply 400 [("Content-Type", "text/html")] (error_page reason))
        | None => (server, mkReply 400 [] EmptyString)
        end
    end
  else (server, mkReply 404 [] EmptyString).

End Listener.

(** ** json.loads

    The values [json.loads] builds and the decoder's grammar.  A float is
    kept as the text that [float()] receives.  The interpreter's own limits
    (recursion depth, the digit limit of [int()]) are not modelled. *)

Module Json.
Import Str.

#[warnings="-register-all"]
Inductive value :=
| Null
| Bool (b : bool)
| Int (n : Z)
| Float (lexeme : string)
| Text (s : string)
| Array (items : list value)
| Object (members : Dict.t value).

Definition is_ws (c : ascii) : bool :=
  Ascii.eqb c " " || Ascii.eqb c "009" || Ascii.eqb c "010" || Ascii.eqb c "013".

(** [WHITESPACE.match(s, idx).end()]. *)
Fixpoint skip_ws (s : string) : string :=
  match s with
  | String c s' => if is_ws c then skip_ws s' else s
  | EmptyString => s
  end.

Definition is_digit (c : ascii) : bool :=
  let n := N_of_ascii c in ((48 <=? n) && (n <=? 57))%N.

(** The longest prefix of digits, and what follows it. *)
Fixpoint take_digits (s : string) : string * string :=
  match s with
  | String c s' =>
      if is_digit c then let (d, r) := take_digits s' in (String c d, r)
      else (EmptyString, s)
  | EmptyString => (EmptyString, s)
  end.

(** [int(digits)] for a string of decimal digits. *)
Definition int_of_digits (digits : string) : Z :=
  (fix go (acc : Z) (s : string) : Z :=
     match s with
     | EmptyString => acc
     | String c s' => go (10 * acc + (Z.of_N (N_of_ascii c) - 48)) s'
     end) 0 digits.

(** [NUMBER_RE]: an optional minus sign and either a zero or a nonzero
    digit with the digits after it; then, optionally, a dot with at least
    one digit; then, optionally, [e] or [E], an optional sign and at least
    one digit.  Returns the integer part, the fraction, the exponent and
    the rest of the input. *)
Definition match_number (s : string)
  : option (string * string * string * string) :=
  let (sign, s1) :=
    match s with
    | String "-" r => ("-", r)
    | _ => (EmptyString, s)
    end in
  let integer :=
    match s1 with
    | String "0" r => Some ("0", r)
    | String c _ => if is_digit c then Some (take_digits s1) else None
    | EmptyString => None
    end in
  match integer with
  | None => None
  | Some (digits, s2) =>
      let (frac, s3) :=
        match s2 with
        | String "." r =>
            match take_digits r with
            | (EmptyString, _) => (EmptyString, s2)
            | (d, r') => ("." ++ d, r')
            end
        | _ => (EmptyString, s2)
        end in
      let (exp, s4) :=
        match s3 with
        | String e r =>
            if Ascii.eqb e "e" || Ascii.eqb e "E" then
              let (sg, r1) :=
                match r with
                | String "-" r1 => ("-", r1)
                | String "+" r1 => ("+", r1)
                | _ => (EmptyString, r)
                end in
              match take_digits r1 with
              | (EmptyString, _) => (EmptyString, s3)
              | (d, r') => (String e (sg ++ d), r')
              end
            else (EmptyString, s3)
        | EmptyString => (EmptyString, s3)
        end in
      Some (sign ++ digits, frac, exp, s4)
  end.

(** The number branch of [scan_once]. *)
Definition scan_number (s : string) : option (value * string) :=
  match match_number s with
  | None => None
  | Some (integer, frac, exp, rest) =>
      if is_empty frac && is_empty exp then
        match integer with
        | String "-" digits => Some (Int (- int_of_digits digits), rest)
        | _ => Some (Int (int_of_digits integer), rest)
        end
      else Some (Float (integer ++ frac ++ exp), rest)
  end.

(** Four hexadecimal digits of a [\uXXXX] escape. *)
Definition hex4 (s : string) : option (N * string) :=
  match s with
  | String a (String b (String c (String d r))) =>
      match Urllib.hex_value a, Urllib.hex_value b,
            Urllib.hex_value c, Urllib.hex_value d with
      | Some a, Some b, Some c, Some d => Some (((a * 16 + b) * 16 + c) * 16 + d, r)%N
      | _, _, _, _ => None
      end
  | _ => None
  end.

(** The UTF-8 bytes of a code point (a lone surrogate gets the three bytes
    of its generalised encoding). *)
Definition utf8 (u : N) : string :=
  let byte (n : N) := String (ascii_of_N n) EmptyString in
  (if u <? 128 then byte u
   else if u <? 2048 then byte (192 + u / 64) ++ byte (128 + u mod 64)
   else if u <? 65536 then
     byte (224 + u / 4096) ++ byte (128 + (u / 64) mod 64) ++ byte (128 + u mod 64)
   else
     byte (240 + u / 262144) ++ byte (128 + (u / 4096) mod 64) ++
     byte (128 + (u / 64) mod 64) ++ byte (128 + u mod 64))%N.

(** [BACKSLASH]: the one-character escapes. *)
Definition backslash (e : ascii) : option ascii :=
  if Ascii.eqb e "034" then Some "034"%char
  else if Ascii.eqb e "\" then Some "\"%char
  else if Ascii.eqb e "/" then Some "/"%char
  else if Ascii.eqb e "b" then Some "008"%char
  else if Ascii.eqb e "f" then Some "012"%char
  else if Ascii.eqb e "n" then Some "010"%char
  else if Ascii.eqb e "r" then Some "013"%char
  else if Ascii.eqb e "t" then Some "009"%char
  else None.

(** [scanstring(s, end, strict=True)], started after the opening quote:
    the decoded text and what follows the closing quote. *)
Fixpoint scanstring (fuel : nat) (s : string) : option (string * string) :=
  match fuel with
  | O => None
  | S fuel =>
      match s with
      | EmptyString => None
      | String c r =>
          if Ascii.eqb c "034" then Some (EmptyString, r)
          else if Ascii.eqb c "\" then
            match r with
            | EmptyString => None
            | String e r1 =>
                if Ascii.eqb e "u" then
                  match hex4 r1 with
                  | None => None
                  | Some (uni, r2) =>
                      let joined :=
                        if ((55296 <=? uni) && (uni <=? 56319))%N then
                          match r2 with
                          | String "\" (String "u" r3) =>
                              match hex4 r3 with
                              | Some (uni2, r4) =>
                                  if ((56320 <=? uni2) && (uni2 <=? 57343))%N
                                  then Some (65536 + ((uni - 55296) * 1024 + (uni2 - 56320)), r4)%N
                                  else None
                              | None => None
                              end
                          | _ => None
                          end
                        else None in
                      let (u, r') :=
                        match joined with Some p => p | None => (uni, r2) end in
                      match scanstring fuel r' with
                      | Some (t, rest) => Some (utf8 u ++ t, rest)
                      | None => None
                      end
                  end
                else
                  match backslash e with
                  | None => None
                  | Some ch =>
                      match scanstring fuel r1 with
                      | Some (t, rest) => Some (String ch t, rest)
                      | None => None
                      end
                  end
            end
          else if (N_of_ascii c <? 32)%N then None
          else
            match scanstring fuel r with
            | Some (t, rest) => Some (String c t, rest)
            | None => None
            end
      end
  end.

(** [s] without its prefix [p], when it has that prefix. *)
Fixpoint strip_prefix (p s : string) : option string :=
  match p with
  | EmptyString => Some s
  | String a p' =>
      match s with
      | String b s' => if Ascii.eqb a b then strip_prefix p' s' else None
      | EmptyString => None
      end
  end.

(** A constant of [scan_once]: [null], [true], [NaN], ... *)
Definition constant (name : string) (v : value) (s : string)
  : option (value * string) :=
  match strip_prefix name s with
  | Some rest => Some (v, rest)
  | None => None
  end.

(** [scan_once], with [JSONObject] and [JSONArray].  [members] starts
    after the opening quote of a key, [elements] at a value. *)
Fixpoint scan_once (fuel : nat) (s : string) {struct fuel}
  : option (value * string) :=
  match fuel with
  | O => None
  | S fuel =>
      match s with
      | EmptyString => None
      | String c r =>
          if Ascii.eqb c "034" then
            match scanstring (S (String.length r)) r with
            | Some (t, rest) => Some (Text t, rest)
            | None => None
            end
          else if Ascii.eqb c "{" then
            match skip_ws r with
            | String "}" rest => Some (Object [], rest)
            | String "034" r' =>
                match members fuel r' [] with
                | Some (pairs, rest) => Some (Object (Dict.of_pairs pairs), rest)
                | None => None
                end
            | _ => None
            end
          else if Ascii.eqb c "[" then
            match skip_ws r with
            | String "]" rest => Some (Array [], rest)
            | r' =>
                match elements fuel r' [] with
                | Some (values, rest) => Some (Array values, rest)
                | None => None
                end
            end
          else if Ascii.eqb c "n" then constant "null" Null s
          else if Ascii.eqb c "t" then constant "true" (Bool true) s
          else if Ascii.eqb c "f" then constant "false" (Bool false) s
          else
            match scan_number s with
            | Some r => Some r
            | None =>
                if Ascii.eqb c "N" then constant "NaN" (Float "NaN") s
                else if Ascii.eqb c "I" then constant "Infinity" (Float "Infinity") s
                else if Ascii.eqb c "-" then constant "-Infinity" (Float "-Infinity") s
                else None
            end
      end
  end
with members (fuel : nat) (s : string) (pairs : list (string * value))
  {struct fuel} : option (list (string * value) * string) :=
  match fuel with
  | O => None
  | S fuel =>
      match scanstring (S (String.length s)) s with
      | None => None
      | Some (key, s1) =>
          match skip_ws s1 with
          | String ":" s2 =>
              match scan_once fuel (skip_ws s2) with
              | None => None
              | Some (v, s3) =>
                  let pairs := (pairs ++ [(key, v)])%list in
                  match skip_ws s3 with
                  | String "}" rest => Some (pairs, rest)
                  | String "," s4 =>
                      match skip_ws s4 with
                      | String "034" s5 => members fuel s5 pairs
                      | _ => None
                      end
                  | _ => None
                  end
              end
          | _ => None
          end
      end
  end
with elements (fuel : nat) (s : string) (values : list value)
  {struct fuel} : option (list value * string) :=
  match fuel with
  | O => None
  | S fuel =>
      match scan_once fuel s with
      | None => None
      | Some (v, s1) =>
          let values := (values ++ [v])%list in
          match skip_ws s1 with
          | String "]" rest => Some (values, rest)
          | String "," s2 => elements fuel (skip_ws s2) values
          | _ => None
          end
      end
  end.

(** [json.loads(s)]: [None] stands for a [JSONDecodeError].  A call that
    uses one unit of fuel has consumed a character since the previous one,
    except the call of [scan_once] at the start of [elements], which
    follows the bracket or the comma just consumed: twice the length of
    the input is enough fuel. *)
Definition loads (s : string) : option value :=
  match scan_once (2 * String.length s + 2) (skip_ws s) with
  | Some (v, rest) => if is_empty (skip_ws rest) then Some v else None
  | None => None
  end.

End Json.

(** ** Effects

    What the program does to the outside world is recorded as a trace of
    events, in program order; what it reads from the outside world comes
    from an environment. *)

Module Effects.

(** A piece of printed text: a string, [str(v)] or
    [json.dumps(v, indent=2)] of a decoded JSON value, or the help text of
    [argparse]. *)
Inductive fragment :=
| Lit (s : string)
| StrOf (v : Json.value)
| Dumps (v : Json.value)
| Help.

Inductive stream := stdout | stderr.

(** [Request(url, data=..., headers=..., method=...)]. *)
Record Request := mkRequest {
  full_url : string;
  data : string;
  req_headers : list (string * string);
  method : string
}.

Inductive event :=
| Print (file : stream) (text : list fragment)
| Listen (port : Z)
| OpenBrowser (url : string)
| Handled (request : Listener.ParseResult) (reply : Listener.Reply)
| ServerClose
| UrlOpen (req : Request).

Inductive exn :=
| HTTPError (code : Z) (body : string)
| URLError
| JSONDecodeError
| KeyError (key : string)
| TypeError
| OSError.

(** How a computation ends: it returns, it raises, it leaves through
    [sys.exit], or it blocks for ever in [handle_request]. *)
Inductive outcome (A : Type) :=
| Return (a : A)
| Raise (e : exn)
| SysExit (code : Z)
| Blocked.
Arguments Return {A} a.
Arguments Raise {A} e.
Arguments SysExit {A} code.
Arguments Blocked {A}.

Definition M (A : Type) : Type := list event * outcome A.

Definition ret {A} (a : A) : M A := ([], Return a).
Definition raise {A} (e : exn) : M A := ([], Raise e).
Definition sys_exit {A} (code : Z) : M A := ([], SysExit code).
Definition emit (e : event) : M unit := ([e], Return tt).

Definition bind {A B} (m : M A) (k : A -> M B) : M B :=
  match m with
  | (tr, Return a) => let (tr', o) := k a in ((tr ++ tr')%list, o)
  | (tr, Raise e) => (tr, Raise e)
  | (tr, SysExit c) => (tr, SysExit c)
  | (tr, Blocked) => (tr, Blocked)
  end.

(** [try: m / except HTTPError as e: handler]. *)
Definition except_HTTPError {A} (m : M A) (handler : Z -> string -> M A) : M A :=
  match m with
  | (tr, Raise (HTTPError code body)) =>
      let (tr', o) := handler code body in ((tr ++ tr')%list, o)
  | _ => m
  end.

Definition trace {A} (m : M A) : list event := fst m.
Definition result {A} (m : M A) : outcome A := snd m.

(** The text printed to one stream, in order. *)
Fixpoint printed (file : stream) (tr : list event) : list (list fragment) :=
  match tr with
  | [] => []
  | Print f text :: tr' =>
      match f, file with
      | stdout, stdout | stderr, stderr => text :: printed file tr'
      | _, _ => printed file tr'
      end
  | _ :: tr' => printed file tr'
  end.

(** The requests sent to the network, in order. *)
Fixpoint network_calls (tr : list event) : list Request :=
  match tr with
  | [] => []
  | UrlOpen req :: tr' => req :: network_calls tr'
  | _ :: tr' => network_calls tr'
  end.

(** The requests the listener served and its replies, in order. *)
Fixpoint handled (tr : list event) : list (Listener.ParseResult * Listener.Reply) :=
  match tr with
  | [] => []
  | Handled r a :: tr' => (r, a) :: handled tr'
  | _ :: tr' => handled tr'
  end.

(** What the token endpoint sends back (after the redirects [urllib]
    follows by itself), or no answer at all.  The body is the text that
    [read().decode()] gives; a body that is not UTF-8 is outside the
    model. *)
Inductive Answer :=
| Response (status : Z) (body : string)
| Unreachable.

Record Env := mkEnv {
  environ : string -> option string;
  port_free : bool;
  browser : list Listener.ParseResult;
  token_endpoint : Request -> Answer
}.

End Effects.

Declare Scope py_scope.
Delimit Scope py_scope with py.
Notation "x <- m ;; k" := (Effects.bind m (fun x => k))
  (at level 61, m at next level, right associativity) : py_scope.
Notation "m ;; k" := (Effects.bind m (fun _ => k))
  (at level 61, right associativity) : py_scope.

(** ** google_auth.py *)

Module GoogleAuth.
Import Str Urllib Listener Effects.
Local Open Scope py_scope.

(** [str(n)] for an integer. *)
Definition str_of_int (n : Z) : string :=
  DecimalString.NilZero.string_of_int (Z.to_int n).

(** [str(v)] for a value that is a string or [None]. *)
Definition str_of (v : option string) : string :=
  match v with Some s => s | None => "None" end.

(** The truth value of a string or [None]: a non-empty string. *)
Definition truthy (v : option string) : option string :=
  match v with
  | Some (String _ _ as s) => Some s
  | _ => None
  end.

Definition SCOPES : list string :=
  [ "https://www.googleapis.com/auth/drive.readonly";
    "https://www.googleapis.com/auth/calendar.readonly";
    "https://www.googleapis.com/auth/calendar.events.readonly" ].

Definition REDIRECT_PORT : Z := 8089.
Definition REDIRECT_URI : string :=
  "http://localhost:" ++ str_of_int REDIRECT_PORT ++ "/callback".

Definition AUTH_ENDPOINT : string := "https://accounts.google.com/o/oauth2/v2/auth".
Definition TOKEN_ENDPOINT : string := "https://oauth2.googleapis.com/token".

Definition print (file : stream) (s : string) : M unit :=
  emit (Print file [Lit s]).

(** [get_auth_url]. *)
Definition auth_params (client_id : string) : list (string * string) :=
  [ ("client_id", client_id);
    ("redirect_uri", REDIRECT_URI);
    ("response_type", "code");
    ("scope", join " " SCOPES);
    ("access_type", "offline");
    ("prompt", "consent") ].

Definition get_auth_url (client_id : string) : string :=
  AUTH_ENDPOINT ++ "?" ++ urlencode (auth_params client_id).

(** [urlopen(req)]: the request goes out; a status outside 200..299 raises
    [HTTPError]; otherwise the body is what [response.read().decode()]
    gives. *)
Definition urlopen (env : Env) (req : Request) : M string :=
  emit (UrlOpen req) ;;
  match token_endpoint env req with
  | Response status body =>
      if (200 <=? status) && (status <? 300) then ret body
      else raise (HTTPError status body)
  | Unreachable => raise URLError
  end.

Definition json_loads (s : string) : M Json.value :=
  match Json.loads s with
  | Some v => ret v
  | None => raise JSONDecodeError
  end.

Definition token_request (fields : list (string * string)) : Request :=
  mkRequest TOKEN_ENDPOINT (urlencode fields)
    [("Content-Type", "application/x-www-form-urlencoded")] "POST".

(** [exchange_code]. *)
Definition exchange_code (env : Env) (client_id client_secret code : string)
  : M Json.value :=
  let data :=
    [ ("client_id", client_id);
      ("client_secret", client_secret);
      ("code", code);
      ("grant_type", "authorization_code");
      ("redirect_uri", REDIRECT_URI) ] in
  let req := token_request data in
  except_HTTPError
    (body <- urlopen env req ;; json_loads body)
    (fun _ error =>
       print stderr ("Error: " ++ error) ;;
       sys_exit 1).

(** [refresh_access_token]. *)
Definition refresh_access_token (env : Env)
  (client_id client_secret refresh_token : string) : M Json.value :=
  let data :=
    [ ("client_id", client_id);
      ("client_secret", client_secret);
      ("refresh_token", refresh_token);
      ("grant_type", "refresh_token") ] in
  let req := token_request data in
  except_HTTPError
    (body <- urlopen env req ;; json_loads body)
    (fun _ error =>
       print stderr ("Error: " ++ error) ;;
       sys_exit 1).

(** [HTTPServer(("localhost", REDIRECT_PORT), OAuthCallbackHandler)] with
    the two fields set to [None]; binding a port in use raises. *)
Definition new_server (env : Env) : M HTTPServer :=
  if port_free env then emit (Listen REDIRECT_PORT) ;; ret (mkServer None None)
  else raise OSError.

Definition is_None {A} (v : option A) : bool :=
  match v with None => true | Some _ => false end.

(** The waiting loop of [run_auth_flow]:
    [while server.auth_code is None and server.auth_error is None:
       server.handle_request()].
    [incoming] are the GET requests that arrive, in order; when none is
    left [handle_request] never returns. *)
Fixpoint wait_for_callback (incoming : list ParseResult) (server : HTTPServer)
  : M HTTPServer :=
  if is_None (auth_code server) && is_None (auth_error server) then
    match incoming with
    | [] => ([], Blocked)
    | request :: incoming' =>
        let (server', reply) := do_GET request server in
        emit (Handled request reply) ;;
        wait_for_callback incoming' server'
    end
  else ret server.

(** [run_auth_flow]. *)
Definition run_auth_flow (env : Env) (client_id client_secret : string)
  : M Json.value :=
  server <- new_server env ;;
  let auth_url := get_auth_url client_id in
  print stdout "Opening browser for authorization..." ;;
  print stdout ("If browser doesn't open, visit:" ++ LF ++ auth_url ++ LF) ;;
  emit (OpenBrowser auth_url) ;;
  print stdout "Waiting for authorization..." ;;
  server <- wait_for_callback (browser env) server ;;
  emit ServerClose ;;
  match truthy (auth_error server) with
  | Some reason =>
      print stderr ("Authorization failed: " ++ reason) ;;
      sys_exit 1
  | None =>
      print stdout "Exchanging code for tokens..." ;;
      exchange_code env client_id client_secret (str_of (auth_code server))
  end.

(** [key in tokens] for a decoded JSON value. *)
Definition contains (key : string) (tokens : Json.value) : M bool :=
  match tokens with
  | Json.Object members => ret (Dict.mem key members)
  | Json.Array items =>
      ret (existsb (fun v => match v with
                             | Json.Text s => String.eqb s key
                             | _ => false
                             end) items)
  | Json.Text s => ret (is_substring key s)
  | _ => raise TypeError
  end.

(** [tokens[key]] for a decoded JSON value and a string key. *)
Definition getitem (tokens : Json.value) (key : string) : M Json.value :=
  match tokens with
  | Json.Object members =>
      match Dict.get key members with
      | Some v => ret v
      | None => raise (KeyError key)
      end
  | _ => raise TypeError
  end.

(** The command line after [argparse]: the subcommand with the values of
    its flags, [None] for a flag that was not given. *)
Inductive Command :=
| login (client_id client_secret : option string)
| refresh (client_id client_secret refresh_token : option string)
| token (client_id client_secret refresh_token : option string)
| no_command.

(** [add_argument(flag, default=os.environ.get(name))]. *)
Definition argument (env : Env) (flag : option string) (name : string)
  : option string :=
  match flag with
  | Some v => Some v
  | None => environ env name
  end.

Definition rule : string := String.concat "" (repeat "=" 50%nat).

(** [main]. *)
Definition main (env : Env) (argv : Command) : M unit :=
  match argv with
  | login client_id client_secret =>
      let client_id := argument env client_id "GOOGLE_CLIENT_ID" in
      let client_secret := argument env client_secret "GOOGLE_CLIENT_SECRET" in
      match truthy client_id, truthy client_secret with
      | Some client_id, Some client_secret =>
          tokens <- run_auth_flow env client_id client_secret ;;
          print stdout (LF ++ rule) ;;
          print stdout "[OK] Authorization successful!" ;;
          print stdout rule ;;
          emit (Print stdout [Dumps tokens]) ;;
          print stdout (LF ++ "[!] Save the refresh_token above! Add it to TOOLS.md or environment.") ;;
          has <- contains "refresh_token" tokens ;;
          if has : bool then
            v <- getitem tokens "refresh_token" ;;
            emit (Print stdout [Lit (LF ++ "Refresh Token:" ++ LF); StrOf v])
          else ret tt
      | _, _ =>
          print stderr "Error: --client-id and --client-secret required" ;;
          sys_exit 1
      end
  | refresh client_id client_secret refresh_token =>
      let client_id := argument env client_id "GOOGLE_CLIENT_ID" in
      let client_secret := argument env client_secret "GOOGLE_CLIENT_SECRET" in
      let refresh_token := argument env refresh_token "GOOGLE_REFRESH_TOKEN" in
      match truthy client_id, truthy client_secret, truthy refresh_token with
      | Some client_id, Some client_secret, Some refresh_token =>
          tokens <- refresh_access_token env client_id client_secret refresh_token ;;
          emit (Print stdout [Dumps tokens])
      | _, _, _ =>
          print stderr "Error: client-id, client-secret, and refresh-token required" ;;
          sys_exit 1
      end
  | token client_id client_secret refresh_token =>
      let client_id := argument env client_id "GOOGLE_CLIENT_ID" in
      let client_secret := argument env client_secret "GOOGLE_CLIENT_SECRET" in
      let refresh_token := argument env refresh_token "GOOGLE_REFRESH_TOKEN" in
      match truthy client_id, truthy client_secret, truthy refresh_token with
      | Some client_id, Some client_secret, Some refresh_token =>
          tokens <- refresh_access_token env client_id client_secret refresh_token ;;
          v <- getitem tokens "access_token" ;;
          emit (Print stdout [StrOf v])
      | _, _, _ =>
          print stderr "Error: client-id, client-secret, and refresh-token required" ;;
          sys_exit 1
      end
  | no_command =>
      emit (Print stdout [Help]) ;;
      sys_exit 1
  end.

End GoogleAuth.

(** ** The vocabulary of the specification

    The specification speaks of the parameters a query string contains and
    of requests that do or do not produce an authorization result.  These
    notions are stated here on the query string itself, independently of
    the branches of [do_GET]. *)

Module Spec.
Import Str Urllib Listener Effects GoogleAuth.

(** The query string contains a parameter named [k], with or without a
    value: [k] is a name in [parse_qsl(qs, keep_blank_values=True)]. *)
Definition query_has (k qs : string) : bool :=
  existsb (fun nv => String.eqb (fst nv) k) (parse_qsl true qs).

(** The values a list of pairs gives to the name [k], in order. *)
Definition named (k : string) (pairs : list (string * string)) : list string :=
  map snd (filter (fun nv => String.eqb (fst nv) k) pairs).

(** The decoded non-empty values the query string gives to [k], in order:
    the values of [k] in [parse_qsl(qs)]. *)
Definition values_of (k qs : string) : list string :=
  named k (parse_qsl false qs).

(** [quote_plus] byte by byte: a space becomes [+], a safe byte stands for
    itself, any other byte becomes [%XX]. *)
Definition plus_quoter (c : ascii) : string :=
  if Ascii.eqb c " " then "+" else quoter "" c.

Fixpoint plus_quoted (s : string) : string :=
  match s with
  | EmptyString => EmptyString
  | String c s' => plus_quoter c ++ plus_quoted s'
  end.

(** The inverse of [quote_plus] in [parse_qsl]: [+] back to a space, then
    [unquote]. *)
Definition unquote_plus (s : string) : string :=
  unquote (replace_char "+" " " s).

(** One [name=value] field of [urlencode]. *)
Definition form_field (kv : string * string) : string :=
  quote_plus (fst kv) ++ "=" ++ quote_plus (snd kv).

(** A listener that has recorded nothing yet. *)
Definition idle : HTTPServer := mkServer None None.

(** Handling the request on an idle listener records a code or an error. *)
Definition produces_result (request : ParseResult) : bool :=
  let server := fst (do_GET request idle) in
  negb (is_None (auth_code server) && is_None (auth_error server)).

(** The listener holds exactly one authorization result. *)
Definition one_result (server : HTTPServer) : Prop :=
  (exists code, auth_code server = Some code /\ auth_error server = None) \/
  (exists reason, auth_code server = None /\ auth_error server = Some reason).

(** A request that is not the callback: another path, or the callback
    path with neither a code nor an error parameter. *)
Definition stray (request : ParseResult) : Prop :=
  path request <> "/callback" \/
  (query_has "code" (query request) = false /\
   query_has "error" (query request) = false).

(** The reply the specification gives to a stray request. *)
Definition stray_reply (request : ParseResult) : Reply :=
  mkReply (if String.eqb (path request) "/callback" then 400 else 404) [] EmptyString.

(** What [run_auth_flow] does before it waits: it binds the port, prints
    the authorization URL and opens it in the browser. *)
Definition announcement (client_id : string) : list event :=
  [ Listen REDIRECT_PORT;
    Print stdout [Lit "Opening browser for authorization..."];
    Print stdout [Lit ("If browser doesn't open, visit:" ++ LF ++
                       get_auth_url client_id ++ LF)];
    OpenBrowser (get_auth_url client_id);
    Print stdout [Lit "Waiting for authorization..."] ].

(** The events of serving requests that leave the listener idle. *)
Definition served (requests : list ParseResult) : list event :=
  map (fun x => Handled x (snd (do_GET x idle))) requests.

(** A required credential is missing: [None] or the empty string. *)
Definition absent (v : option string) : Prop := truthy v = None.

(** Some credential the subcommand requires is missing after the flag and
    the environment variable have been consulted. *)
Definition missing_credential (env : Env) (argv : Command) : Prop :=
  match argv with
  | login i s =>
      absent (argument env i "GOOGLE_CLIENT_ID") \/
      absent (argument env s "GOOGLE_CLIENT_SECRET")
  | refresh i s r | token i s r =>
      absent (argument env i "GOOGLE_CLIENT_ID") \/
      absent (argument env s "GOOGLE_CLIENT_SECRET") \/
      absent (argument env r "GOOGLE_REFRESH_TOKEN")
  | no_command => False
  end.

(** The usage error of each subcommand. *)
Definition usage_error (argv : Command) : string :=
  match argv with
  | login _ _ => "Error: --client-id and --client-secret required"
  | _ => "Error: client-id, client-secret, and refresh-token required"
  end.

(** The form fields of a refresh request. *)
Definition refresh_fields (client_id client_secret refresh_token : string)
  : list (string * string) :=
  [ ("client_id", client_id);
    ("client_secret", client_secret);
    ("refresh_token", refresh_token);
    ("grant_type", "refresh_token") ].

(** The form fields of an authorization-code exchange. *)
Definition exchange_fields (client_id client_secret code : string)
  : list (string * string) :=
  [ ("client_id", client_id);
    ("client_secret", client_secret);
    ("code", code);
    ("grant_type", "authorization_code");
    ("redirect_uri", "http://localhost:8089/callback") ].

(** A JSON text written with single quotes in place of double quotes. *)
Definition json_text (s : string) : string := replace_char "'" "034" s.

(** The token response of the specification's refresh example. *)
Definition bearer_body : string :=
  json_text "{'access_token':'X','expires_in':3600,'token_type':'Bearer'}".

(** The error body of the specification's exchange example. *)
Definition invalid_grant_body : string := json_text "{'error':'invalid_grant'}".

(** An environment with no variables set, the port free, the given
    requests arriving at the listener and the given answer from the token
    endpoint. *)
Definition sample_env (requests : list ParseResult) (answer : Answer) : Env :=
  mkEnv (fun _ => None) true requests (fun _ => answer).

End Spec.

(** ** google_api.py: the credentials and the access token

    The API client reads its credentials from the environment only and
    asks the same token endpoint for an access token before each call. *)

Module GoogleApi.
Import Str Urllib Effects GoogleAuth.
Local Open Scope py_scope.

(** [get_credentials]. *)
Definition get_credentials (env : Env) : M (string * string * string) :=
  let client_id := environ env "GOOGLE_CLIENT_ID" in
  let client_secret := environ env "GOOGLE_CLIENT_SECRET" in
  let refresh_token := environ env "GOOGLE_REFRESH_TOKEN" in
  match truthy client_id, truthy client_secret, truthy refresh_token with
  | Some client_id, Some client_secret, Some refresh_token =>
      ret (client_id, client_secret, refresh_token)
  | _, _, _ =>
      print stderr
        "Error: Set GOOGLE_CLIENT_ID, GOOGLE_CLIENT_SECRET, and GOOGLE_REFRESH_TOKEN" ;;
      sys_exit 1
  end.

(** [get_access_token]. *)
Definition get_access_token (env : Env) : M Json.value :=
  credentials <- get_credentials env ;;
  let '(client_id, client_secret, refresh_token) := credentials in
  let data :=
    urlencode
      [ ("client_id", client_id);
        ("client_secret", client_secret);
        ("refresh_token", refresh_token);
        ("grant_type", "refresh_token") ] in
  let req :=
    mkRequest "https://oauth2.googleapis.com/token" data
      [("Content-Type", "application/x-www-form-urlencoded")] "POST" in
  except_HTTPError
    (body <- urlopen env req ;;
     tokens <- json_loads body ;;
     getitem tokens "access_token")
    (fun _ error =>
       print stderr ("Auth Error: " ++ error) ;;
       sys_exit 1).

End GoogleApi.

(** ** jira_api.py: the credentials *)

Module JiraApi.
Import Str Effects GoogleAuth.
Local Open Scope py_scope.

(** [s.rstrip(c)] for a one-character [c]. *)
Fixpoint rstrip (c : ascii) (s : string) : string :=
  match s with
  | EmptyString => EmptyString
  | String d s' =>
      match rstrip c s' with
      | EmptyString => if Ascii.eqb d c then EmptyString else String d EmptyString
      | r => String d r
      end
  end.

(** [os.environ.get(name, "")]. *)
Definition environ_get (env : Env) (name : string) : string :=
  match environ env name with
  | Some v => v
  | None => EmptyString
  end.

(** [get_auth]. *)
Definition get_auth (env : Env) : M (string * string * string) :=
  let domain := rstrip "/" (environ_get env "JIRA_DOMAIN") in
  let email := environ_get env "JIRA_EMAIL" in
  let token := environ_get env "JIRA_API_TOKEN" in
  if negb (is_empty domain) && negb (is_empty email) && negb (is_empty token)
  then ret (domain, email, token)
  else
    print stderr
      "Error: Set JIRA_DOMAIN, JIRA_EMAIL, and JIRA_API_TOKEN environment variables" ;;
    sys_exit 1.

End JiraApi.

(** ** Further vocabulary *)

Module Notions.
Import Str Urllib Listener Effects GoogleAuth Spec.

(** Every character of the string satisfies the test. *)
Fixpoint all_chars (p : ascii -> bool) (s : string) : bool :=
  match s with
  | EmptyString => true
  | String c s' => p c && all_chars p s'
  end.

(** The characters of a well-formed URL with a query string: the
    unreserved characters and the delimiters [: / ? & = % +]. *)
Definition url_char (c : ascii) : bool :=
  always_safe c || contains_char c ":/?&=%+".

(** The last character of the string is [c]. *)
Fixpoint ends_with (c : ascii) (s : string) : bool :=
  match s with
  | EmptyString => false
  | String d EmptyString => Ascii.eqb d c
  | String _ s' => ends_with c s'
  end.

(** The string made of [n] times the character [c]. *)
Fixpoint copies (n : nat) (c : ascii) : string :=
  match n with
  | O => EmptyString
  | S n' => String c (copies n' c)
  end.


(** An environment in which only the three Google variables are set. *)
Definition google_environ (client_id client_secret refresh_token : string)
  (name : string) : option string :=
  if String.eqb name "GOOGLE_CLIENT_ID" then Some client_id
  else if String.eqb name "GOOGLE_CLIENT_SECRET" then Some client_secret
  else if String.eqb name "GOOGLE_REFRESH_TOKEN" then Some refresh_token
  else None.

(** An environment in which only the three Jira variables are set. *)
Definition jira_environ (domain email token : string)
  (name : string) : option string :=
  if String.eqb name "JIRA_DOMAIN" then Some domain
  else if String.eqb name "JIRA_EMAIL" then Some email
  else if String.eqb name "JIRA_API_TOKEN" then Some token
  else None.

End Notions.

(** * Properties *)

(** ** Dicts *)

Module DictFacts.

Lemma get_set_same {V} (k : string) (v : V) (d : Dict.t V) :
  Dict.get k (Dict.set k v d) = Some v.
Proof.
  induction d as [|[k' v'] d IH]; simpl.
  - now rewrite String.eqb_refl.
  - destruct (String.eqb k' k) eqn:E; simpl; rewrite E; auto.
Qed.

Lemma get_set_other {V} (k k0 : string) (v : V) (d : Dict.t V) :
  k0 <> k -> Dict.get k (Dict.set k0 v d) = Dict.get k d.
Proof.
  intros Hne. induction d as [|[k' v'] d IH]; simpl.
  - destruct (String.eqb k0 k) eqn:E; auto.
    apply String.eqb_eq in E. contradiction.
  - destruct (String.eqb k' k0) eqn:E0; simpl.
    + apply String.eqb_eq in E0. subst k'.
      apply String.eqb_neq in Hne. now rewrite Hne.
    + now rewrite IH.
Qed.

End DictFacts.

(** ** The query parser *)

Module QueryFacts.
Import Str Urllib UrllibQs Spec.

(** What [parse_qs]'s loop leaves under a key: the values already there,
    followed by the values the pairs give to the key. *)
Lemma fold_parse_qs_get (k : string) (pairs : list (string * string)) :
  forall d,
    Dict.get k (fold_left parse_qs_step pairs d) =
    match Dict.get k d with
    | Some l => Some (l ++ named k pairs)%list
    | None => match named k pairs with [] => None | l => Some l end
    end.
Proof.
  induction pairs as [|[n v] pairs IH]; intros d; simpl.
  - unfold named; simpl. destruct (Dict.get k d); auto. now rewrite app_nil_r.
  - rewrite IH. unfold parse_qs_step, named; simpl.
    destruct (String.eqb n k) eqn:E; simpl.
    + apply String.eqb_eq in E. subst n.
      destruct (Dict.get k d) as [l|] eqn:G.
      * rewrite DictFacts.get_set_same. now rewrite <- app_assoc.
      * rewrite DictFacts.get_set_same. reflexivity.
    + apply String.eqb_neq in E.
      destruct (Dict.get n d) as [l|] eqn:G;
        rewrite DictFacts.get_set_other by assumption; reflexivity.
Qed.

(** [parse_qs(qs).get(k)] is the list of the non-empty values of [k], or
    [None] when there is none. *)
Lemma parse_qs_get (k qs : string) :
  Dict.get k (parse_qs qs) =
  match values_of k qs with [] => None | l => Some l end.
Proof.
  unfold parse_qs. rewrite fold_parse_qs_get. reflexivity.
Qed.

(** No list stored by [parse_qs] is empty. *)
Lemma parse_qs_values_nonempty (k qs : string) :
  Dict.get k (parse_qs qs) <> Some [].
Proof.
  rewrite parse_qs_get. destruct (values_of k qs); discriminate.
Qed.

(** A field kept without blank values is kept, unchanged, with them. *)
Lemma parse_field_keep (f : string) (p : string * string) :
  parse_field false f = Some p -> parse_field true f = Some p.
Proof.
  unfold parse_field. destruct (is_empty f); [discriminate|].
  destruct (split1 "=" f) as [n [v|]]; simpl; [|discriminate].
  rewrite orb_false_r, orb_true_r. destruct (is_empty v); simpl; [discriminate|auto].
Qed.

Lemma collect_keep (fields : list string) (p : string * string) :
  In p (collect (map (parse_field false) fields)) ->
  In p (collect (map (parse_field true) fields)).
Proof.
  induction fields as [|f fields IH]; simpl; [auto|].
  destruct (parse_field false f) as [p'|] eqn:E.
  - apply parse_field_keep in E. rewrite E. simpl. intuition.
  - intros H. apply IH in H. destruct (parse_field true f); simpl; auto.
Qed.

(** A query string that does not contain a parameter gives it no value. *)
Lemma values_of_absent (k qs : string) :
  query_has k qs = false -> values_of k qs = [].
Proof.
  unfold query_has, values_of, named, parse_qsl. intros H.
  destruct (filter _ _) as [|p l] eqn:F; [reflexivity|].
  assert (Hin : In p (filter (fun nv => String.eqb (fst nv) k)
                        (collect (map (parse_field false) (split "&" qs)))))
    by (rewrite F; now left).
  apply filter_In in Hin. destruct Hin as [Hin Hk].
  apply collect_keep in Hin.
  assert (existsb (fun nv => String.eqb (fst nv) k)
            (collect (map (parse_field true) (split "&" qs))) = true)
    by (apply existsb_exists; eauto).
  congruence.
Qed.

End QueryFacts.

(** ** The callback handler *)

Module HandlerFacts.
Import Str Urllib UrllibQs Listener Effects GoogleAuth Spec.

Lemma do_GET_other_path (request : ParseResult) (server : HTTPServer) :
  path request <> "/callback" ->
  do_GET request server = (server, mkReply 404 [] EmptyString).
Proof.
  intros H. unfold do_GET. apply String.eqb_neq in H. now rewrite H.
Qed.

Lemma do_GET_code (request : ParseResult) (server : HTTPServer)
  (code : string) (more : list string) :
  path request = "/callback" ->
  values_of "code" (query request) = code :: more ->
  do_GET request server =
    (mkServer (Some code) (auth_error server),
     mkReply 200 [("Content-Type", "text/html")] success_page).
Proof.
  intros Hp Hc. unfold do_GET. rewrite Hp, String.eqb_refl.
  rewrite QueryFacts.parse_qs_get, Hc. reflexivity.
Qed.

Lemma do_GET_error (request : ParseResult) (server : HTTPServer)
  (error : string) (more : list string) :
  path request = "/callback" ->
  values_of "code" (query request) = [] ->
  values_of "error" (query request) = error :: more ->
  do_GET request server =
    (mkServer (auth_code server)
       (Some (hd error (values_of "error_description" (query request)))),
     mkReply 400 [("Content-Type", "text/html")]
       (error_page (hd error (values_of "error_description" (query request))))).
Proof.
  intros Hp Hc He. unfold do_GET. rewrite Hp, String.eqb_refl.
  rewrite !QueryFacts.parse_qs_get, Hc, He.
  destruct (values_of "error_description" (query request)); reflexivity.
Qed.

Lemma do_GET_neither (request : ParseResult) (server : HTTPServer) :
  path request = "/callback" ->
  values_of "code" (query request) = [] ->
  values_of "error" (query request) = [] ->
  do_GET request server = (server, mkReply 400 [] EmptyString).
Proof.
  intros Hp Hc He. unfold do_GET. rewrite Hp, String.eqb_refl.
  rewrite !QueryFacts.parse_qs_get, Hc, He. reflexivity.
Qed.

Lemma do_GET_stray (request : ParseResult) (server : HTTPServer) :
  stray request -> do_GET request server = (server, stray_reply request).
Proof.
  intros [Hp | [Hc He]]; unfold stray_reply.
  - rewrite (do_GET_other_path _ _ Hp). apply String.eqb_neq in Hp. now rewrite Hp.
  - destruct (String.eqb (path request) "/callback") eqn:E.
    + apply String.eqb_eq in E.
      apply do_GET_neither; auto using QueryFacts.values_of_absent.
    + apply String.eqb_neq in E. now apply do_GET_other_path.
Qed.

(** The handler writes at most one of the two fields, and only on the
    callback path. *)
Lemma do_GET_idle_cases (request : ParseResult) :
  let server := fst (do_GET request idle) in
  server = idle \/ one_result server.
Proof.
  unfold do_GET, idle, one_result.
  destruct (String.eqb (path request) "/callback"); [|now left].
  destruct (Dict.get "code" _); [right; left; simpl; eauto|].
  destruct (Dict.get "error" _); [right; right; simpl; eauto|now left].
Qed.

(** One turn of the waiting loop on an idle listener. *)
Lemma wait_step (request : ParseResult) (incoming : list ParseResult) :
  wait_for_callback (request :: incoming) idle =
  (Handled request (snd (do_GET request idle))
     :: trace (wait_for_callback incoming (fst (do_GET request idle))),
   result (wait_for_callback incoming (fst (do_GET request idle)))).
Proof.
  simpl. destruct (do_GET request idle) as [server reply]. simpl.
  destruct (wait_for_callback incoming server) as [tr o]. reflexivity.
Qed.

(** The loop does not turn once a result is recorded. *)
Lemma wait_done (incoming : list ParseResult) (server : HTTPServer) :
  one_result server -> wait_for_callback incoming server = ([], Return server).
Proof.
  intros [[c [Hc He]] | [r [Hc He]]]; destruct incoming; simpl;
    rewrite Hc, He; reflexivity.
Qed.

Lemma produces_result_false (request : ParseResult) :
  produces_result request = false -> fst (do_GET request idle) = idle.
Proof.
  unfold produces_result. intros H.
  destruct (do_GET_idle_cases request) as [E | [[c [Hc He]] | [r [Hc He]]]]; auto;
    simpl in *; rewrite Hc, He in H; discriminate.
Qed.

Lemma produces_result_true (request : ParseResult) :
  produces_result request = true -> one_result (fst (do_GET request idle)).
Proof.
  unfold produces_result. intros H.
  destruct (do_GET_idle_cases request) as [E | E]; auto.
  simpl in E. rewrite E in H. discriminate.
Qed.

(** Requests that produce no result are served one after the other and
    leave the listener idle. *)
Lemma wait_skip (before incoming : list ParseResult) :
  Forall (fun x => produces_result x = false) before ->
  wait_for_callback (before ++ incoming) idle =
  (served before ++ trace (wait_for_callback incoming idle),
   result (wait_for_callback incoming idle))%list.
Proof.
  unfold served. induction 1 as [|x before Hx _ IH]; simpl app; simpl map.
  - now destruct (wait_for_callback incoming idle).
  - rewrite wait_step, (produces_result_false _ Hx), IH. reflexivity.
Qed.

End HandlerFacts.

(** ** The login flow *)

Module FlowFacts.
Import Str Urllib UrllibQs Listener Effects GoogleAuth Spec.


(** The token exchange serves no callback request. *)
Lemma exchange_code_handles_nothing (env : Env) (i s c : string) :
  handled (trace (exchange_code env i s c)) = [].
Proof.
  unfold exchange_code, urlopen, json_loads. simpl.
  destruct (token_endpoint env _) as [status body|]; simpl; [|reflexivity].
  destruct ((200 <=? status) && (status <? 300)); simpl; [|reflexivity].
  destruct (Json.loads body); reflexivity.
Qed.

(** [run_auth_flow] once the waiting loop has returned. *)
Lemma run_auth_flow_after_wait (env : Env) (i s : string)
  (tr : list event) (server : HTTPServer) :
  port_free env = true ->
  wait_for_callback (browser env) idle = (tr, Return server) ->
  exists tail,
    trace (run_auth_flow env i s) =
      (announcement i ++ tr ++ ServerClose :: tail)%list /\
    handled tail = [].
Proof.
  intros Hport Hwait. unfold run_auth_flow, new_server. rewrite Hport.
  change (mkServer None None) with idle.
  destruct (truthy (auth_error server)) as [reason|] eqn:T.
  - exists [Print stderr [Lit ("Authorization failed: " ++ reason)]].
    split; [|reflexivity].
    simpl. rewrite Hwait. simpl. rewrite T. simpl.
    reflexivity.
  - exists (Print stdout [Lit "Exchanging code for tokens..."]
            :: trace (exchange_code env i s (str_of (auth_code server)))).
    split; [|simpl; apply exchange_code_handles_nothing].
    simpl. rewrite Hwait. simpl. rewrite T.
    destruct (exchange_code env i s (str_of (auth_code server))) as [tr' o].
    reflexivity.
Qed.

(** [run_auth_flow] when the waiting loop never returns. *)
Lemma run_auth_flow_blocked (env : Env) (i s : string) (tr : list event) :
  port_free env = true ->
  wait_for_callback (browser env) idle = (tr, Blocked) ->
  run_auth_flow env i s = ((announcement i ++ tr)%list, Blocked).
Proof.
  intros Hport Hwait. unfold run_auth_flow, new_server. rewrite Hport.
  change (mkServer None None) with idle. simpl. rewrite Hwait. reflexivity.
Qed.

(** Either no request produces a result, or there is a first one that
    does. *)
Lemma first_result_split (incoming : list ParseResult) :
  Forall (fun x => produces_result x = false) incoming \/
  exists before callback after,
    incoming = (before ++ callback :: after)%list /\
    Forall (fun x => produces_result x = false) before /\
    produces_result callback = true.
Proof.
  induction incoming as [|x incoming IH]; [left; constructor|].
  destruct (produces_result x) eqn:E.
  - right. exists [], x, incoming. repeat split; auto.
  - destruct IH as [IH | [before [callback [after [-> [Hb Hc]]]]]].
    + left. now constructor.
    + right. exists (x :: before), callback, after. repeat split; auto.
Qed.

(** The waiting loop up to and including the first request that produces
    a result. *)
Lemma wait_until_first_result
  (before : list ParseResult) (callback : ParseResult) (after : list ParseResult) :
  Forall (fun x => produces_result x = false) before ->
  produces_result callback = true ->
  one_result (fst (do_GET callback idle)) /\
  wait_for_callback (before ++ callback :: after) idle =
    ((served before ++ [Handled callback (snd (do_GET callback idle))])%list,
     Return (fst (do_GET callback idle))).
Proof.
  intros Hbefore Hcallback.
  pose proof (HandlerFacts.produces_result_true _ Hcallback) as Hone.
  split; [exact Hone|].
  rewrite (HandlerFacts.wait_skip _ _ Hbefore), HandlerFacts.wait_step.
  rewrite (HandlerFacts.wait_done after _ Hone). reflexivity.
Qed.

(** The waiting loop when no request produces a result. *)
Lemma wait_for_ever (incoming : list ParseResult) :
  Forall (fun x => produces_result x = false) incoming ->
  wait_for_callback incoming idle = (served incoming, Blocked).
Proof.
  intros H. pose proof (HandlerFacts.wait_skip incoming [] H) as E.
  rewrite !app_nil_r in E. exact E.
Qed.

End FlowFacts.

(** ** The callback listener: the specification's properties *)

Module CallbackListener.
Import Str Urllib UrllibQs Listener Effects GoogleAuth Spec.

(** C1.  One authorization result per login attempt.  Whatever requests
    arrive, the waiting loop serves them one after the other.  Either none
    of them records a code or an error, and the flow is still waiting
    after it has served them all; or there is a first request that does:
    that request leaves exactly one result on the listener, the loop
    returns at once, the server is closed next, and no request that
    arrives later is served. *)
Theorem one_result_per_login (env : Env) (client_id client_secret : string) :
  port_free env = true ->
  (Forall (fun x => produces_result x = false) (browser env) /\
   run_auth_flow env client_id client_secret =
     ((announcement client_id ++ served (browser env))%list, Blocked))
  \/
  (exists before callback after server reply tail,
      browser env = (before ++ callback :: after)%list /\
      Forall (fun x => produces_result x = false) before /\
      produces_result callback = true /\
      do_GET callback idle = (server, reply) /\
      one_result server /\
      wait_for_callback (browser env) idle =
        ((served before ++ [Handled callback reply])%list, Return server) /\
      trace (run_auth_flow env client_id client_secret) =
        (announcement client_id ++ served before ++
         Handled callback reply :: ServerClose :: tail)%list /\
      handled tail = []).
Proof.
  intros Hport.
  destruct (FlowFacts.first_result_split (browser env))
    as [Hnone | [before [callback [after [Hbrowser [Hbefore Hcallback]]]]]].
  - left. split; [exact Hnone|].
    apply FlowFacts.run_auth_flow_blocked; [exact Hport|].
    now apply FlowFacts.wait_for_ever.
  - right.
    destruct (FlowFacts.wait_until_first_result before callback after Hbefore Hcallback)
      as [Hone Hwait].
    rewrite <- Hbrowser in Hwait.
    destruct (FlowFacts.run_auth_flow_after_wait env client_id client_secret _ _ Hport Hwait)
      as [tail [Htrace Htail]].
    exists before, callback, after, (fst (do_GET callback idle)),
      (snd (do_GET callback idle)), tail.
    repeat split; auto.
    + now destruct (do_GET callback idle).
    + rewrite Htrace, <- app_assoc. reflexivity.
Qed.

(** C4, as the code has it.  A request on [/callback] whose query string
    gives the [code] parameter a non-empty value records Success with the
    first such value, URL-decoded; the reply is 200 with the static
    confirmation page; the waiting loop returns and serves nothing more. *)
Theorem callback_code_gives_success (request : ParseResult)
  (code : string) (more : list string) (later : list ParseResult) :
  path request = "/callback" ->
  values_of "code" (query request) = code :: more ->
  do_GET request idle =
    (mkServer (Some code) None,
     mkReply 200 [("Content-Type", "text/html")] success_page) /\
  wait_for_callback (request :: later) idle =
    ([Handled request (mkReply 200 [("Content-Type", "text/html")] success_page)],
     Return (mkServer (Some code) None)).
Proof.
  intros Hp Hc.
  pose proof (HandlerFacts.do_GET_code request idle code more Hp Hc) as E.
  split; [exact E|].
  rewrite HandlerFacts.wait_step, E. simpl fst; simpl snd.
  rewrite HandlerFacts.wait_done; [reflexivity|].
  left. exists code. now split.
Qed.

(** C5, as the code has it.  A request on [/callback] whose query string
    gives [code] no non-empty value and gives [error] a non-empty value
    records Failure; the reason is the first non-empty [error_description],
    URL-decoded, when there is one, and the first [error] value otherwise;
    the reply is 400 with an HTML page that shows the reason; the waiting
    loop returns and serves nothing more. *)
Theorem callback_error_gives_failure (request : ParseResult)
  (error : string) (more : list string) (later : list ParseResult) :
  path request = "/callback" ->
  values_of "code" (query request) = [] ->
  values_of "error" (query request) = error :: more ->
  let reason := hd error (values_of "error_description" (query request)) in
  do_GET request idle =
    (mkServer None (Some reason),
     mkReply 400 [("Content-Type", "text/html")] (error_page reason)) /\
  wait_for_callback (request :: later) idle =
    ([Handled request
        (mkReply 400 [("Content-Type", "text/html")] (error_page reason))],
     Return (mkServer None (Some reason))).
Proof.
  intros Hp Hc He reason.
  pose proof (HandlerFacts.do_GET_error request idle error more Hp Hc He) as E.
  fold reason in E. split; [exact E|].
  rewrite HandlerFacts.wait_step, E. simpl fst; simpl snd.
  rewrite HandlerFacts.wait_done; [reflexivity|].
  right. exists reason. now split.
Qed.

(** C6.  A request on another path is answered 404 and a request on
    [/callback] with neither a [code] nor an [error] parameter is answered
    400; neither changes the listener, whatever it holds; and a loop that
    receives only such requests serves every one of them and is still
    waiting afterwards. *)
Theorem stray_requests_keep_waiting (requests : list ParseResult) :
  Forall stray requests ->
  (forall request server,
      In request requests ->
      do_GET request server = (server, stray_reply request)) /\
  wait_for_callback requests idle =
    (map (fun x => Handled x (stray_reply x)) requests, Blocked).
Proof.
  intros Hall. split.
  - intros request server Hin. apply HandlerFacts.do_GET_stray.
    rewrite Forall_forall in Hall. auto.
  - induction Hall as [|x requests Hx _ IH]; [reflexivity|].
    rewrite HandlerFacts.wait_step, (HandlerFacts.do_GET_stray x idle Hx).
    simpl fst; simpl snd. rewrite IH. reflexivity.
Qed.

(** C9, as the code has it.  When the query string of a request on
    [/callback] gives [code] a non-empty value and also contains an
    [error] parameter, the code wins: Success with that code is recorded,
    the reply is 200, and the error field of the listener is left as it
    was. *)
Theorem code_takes_precedence (request : ParseResult) (server : HTTPServer)
  (code : string) (more : list string) :
  path request = "/callback" ->
  values_of "code" (query request) = code :: more ->
  query_has "error" (query request) = true ->
  auth_code (fst (do_GET request server)) = Some code /\
  auth_error (fst (do_GET request server)) = auth_error server /\
  status (snd (do_GET request server)) = 200 /\
  body (snd (do_GET request server)) = success_page.
Proof.
  intros Hp Hc _.
  rewrite (HandlerFacts.do_GET_code request server code more Hp Hc).
  repeat split.
Qed.

End CallbackListener.

(** ** Strings *)

Module StrFacts.
Import Str.

Lemma append_empty_r (s : string) : s ++ "" = s.
Proof. induction s; simpl; congruence. Qed.

Lemma append_assoc (a b c : string) : (a ++ b) ++ c = a ++ (b ++ c).
Proof. induction a; simpl; congruence. Qed.

Lemma concat_cons (x : string) (l : list string) :
  String.concat "" (x :: l) = x ++ String.concat "" l.
Proof. destruct l; simpl; [now rewrite append_empty_r | reflexivity]. Qed.

Lemma replace_char_app (a b : ascii) (x y : string) :
  replace_char a b (x ++ y) = replace_char a b x ++ replace_char a b y.
Proof. induction x; simpl; congruence. Qed.

Lemma contains_char_app (c : ascii) (x y : string) :
  contains_char c (x ++ y) = contains_char c x || contains_char c y.
Proof.
  induction x; simpl; [reflexivity|]. rewrite IHx. now rewrite orb_assoc.
Qed.

Lemma is_empty_app_cons (x : string) (c : ascii) (y : string) :
  is_empty (x ++ String c y) = false.
Proof. destruct x; reflexivity. Qed.

(** Splitting at a separator that the first part does not contain. *)
Lemma split_app_sep (sep : ascii) (a b : string) :
  contains_char sep a = false ->
  split sep (a ++ String sep b) = a :: split sep b.
Proof.
  induction a as [|d a IH]; simpl; intros H.
  - now rewrite Ascii.eqb_refl.
  - apply orb_false_iff in H. destruct H as [Hd Ha].
    rewrite Hd, (IH Ha). reflexivity.
Qed.

Lemma split_no_sep (sep : ascii) (a : string) :
  contains_char sep a = false -> split sep a = [a].
Proof.
  induction a as [|d a IH]; simpl; intros H; [reflexivity|].
  apply orb_false_iff in H. destruct H as [Hd Ha].
  rewrite Hd, (IH Ha). reflexivity.
Qed.

Lemma split1_app_sep (sep : ascii) (a b : string) :
  contains_char sep a = false ->
  split1 sep (a ++ String sep b) = (a, Some b).
Proof.
  induction a as [|d a IH]; simpl; intros H.
  - now rewrite Ascii.eqb_refl.
  - apply orb_false_iff in H. destruct H as [Hd Ha].
    rewrite Hd, (IH Ha). reflexivity.
Qed.

(** Joining with a separator and splitting at it. *)
Lemma split_join (sep : ascii) (fields : list string) :
  fields <> [] ->
  Forall (fun f => contains_char sep f = false) fields ->
  split sep (join (String sep "") fields) = fields.
Proof.
  intros Hne Hall. induction Hall as [|f fields Hf Hall IH]; [congruence|].
  destruct fields as [|g fields].
  - simpl. now apply split_no_sep.
  - change (join (String sep "") (f :: g :: fields))
      with (f ++ String sep (join (String sep "") (g :: fields))).
    rewrite (split_app_sep _ _ _ Hf), IH; [reflexivity | discriminate].
Qed.

End StrFacts.

(** ** Quoting and unquoting *)

Module UrlFacts.
Import Str Urllib Spec.

Local Ltac each_byte c := destruct c as [[] [] [] [] [] [] [] []].

(** With the space among the safe characters and the spaces replaced
    afterwards, [quote] is [quote_plus] byte by byte. *)
Lemma replace_quoter_space (c : ascii) :
  replace_char " " "+" (quoter " " c) = plus_quoter c.
Proof. each_byte c; reflexivity. Qed.

Lemma quote_space (s : string) :
  replace_char " " "+" (quote " " s) = plus_quoted s.
Proof.
  induction s as [|c s IH]; simpl; [reflexivity|].
  now rewrite StrFacts.replace_char_app, replace_quoter_space, IH.
Qed.

Lemma quote_no_space (s : string) :
  contains_char " " s = false -> quote "" s = plus_quoted s.
Proof.
  induction s as [|c s IH]; simpl; intros H; [reflexivity|].
  apply orb_false_iff in H. destruct H as [Hc Hs].
  unfold plus_quoter. now rewrite Hc, (IH Hs).
Qed.

Lemma quote_plus_bytewise (s : string) : quote_plus s = plus_quoted s.
Proof.
  unfold quote_plus. destruct (contains_char " " s) eqn:E.
  - apply quote_space.
  - now apply quote_no_space.
Qed.

(** The two shapes of a quoted byte once [+] is turned back into a space:
    the byte itself, which is not [%], or [%] and two hexadecimal digits
    whose value is the byte. *)
Lemma plus_quoter_shape (c : ascii) :
  (replace_char "+" " " (plus_quoter c) = String c "" /\ c <> "%"%char) \/
  (exists h1 h2 a b,
      replace_char "+" " " (plus_quoter c) = String "%" (String h1 (String h2 "")) /\
      hex_value h1 = Some a /\ hex_value h2 = Some b /\
      ascii_of_N (16 * a + b) = c).
Proof.
  each_byte c;
    first [ left; split; [reflexivity | discriminate]
          | right; do 4 eexists; repeat split ].
Qed.

Lemma plus_quoter_no_separator (c : ascii) :
  contains_char "&" (plus_quoter c) = false /\
  contains_char "=" (plus_quoter c) = false.
Proof. each_byte c; split; reflexivity. Qed.

Lemma hex_value_not_percent (h : ascii) (a : N) :
  hex_value h = Some a -> Ascii.eqb h "%" = false.
Proof.
  intros H. destruct (Ascii.eqb h "%") eqn:E; [|reflexivity].
  apply Ascii.eqb_eq in E. subst h. discriminate.
Qed.

Lemma unquote_plain (c : ascii) (t : string) :
  c <> "%"%char -> unquote (String c t) = String c (unquote t).
Proof.
  intros H. apply Ascii.eqb_neq in H. unfold unquote. simpl. rewrite H.
  destruct (split "%" t); reflexivity.
Qed.

Lemma unquote_escape (h1 h2 : ascii) (a b : N) (t : string) :
  hex_value h1 = Some a -> hex_value h2 = Some b ->
  unquote (String "%" (String h1 (String h2 t))) =
  String (ascii_of_N (16 * a + b)) (unquote t).
Proof.
  intros H1 H2. unfold unquote. simpl.
  rewrite (hex_value_not_percent _ _ H1), (hex_value_not_percent _ _ H2).
  destruct (split "%" t) as [|h tl].
  - simpl. now rewrite H1, H2.
  - change (map unquote_item (String h1 (String h2 h) :: tl))
      with (unquote_item (String h1 (String h2 h)) :: map unquote_item tl).
    rewrite StrFacts.concat_cons. simpl. now rewrite H1, H2.
Qed.

(** [unquote_plus] undoes [quote_plus]. *)
Lemma unquote_plus_quoted (s : string) : unquote_plus (plus_quoted s) = s.
Proof.
  unfold unquote_plus. induction s as [|c s IH]; [reflexivity|].
  simpl plus_quoted. rewrite StrFacts.replace_char_app.
  destruct (plus_quoter_shape c) as [[E Hc] | [h1 [h2 [a [b [E [H1 [H2 Hb]]]]]]]];
    rewrite E; simpl append.
  - now rewrite (unquote_plain _ _ Hc), IH.
  - now rewrite (unquote_escape _ _ _ _ _ H1 H2), Hb, IH.
Qed.

Lemma unquote_plus_quote_plus (s : string) : unquote_plus (quote_plus s) = s.
Proof. rewrite quote_plus_bytewise. apply unquote_plus_quoted. Qed.

Lemma quote_plus_no_separator (s : string) :
  contains_char "&" (quote_plus s) = false /\
  contains_char "=" (quote_plus s) = false.
Proof.
  rewrite quote_plus_bytewise. induction s as [|c s [IH1 IH2]]; simpl; [auto|].
  rewrite !StrFacts.contains_char_app, IH1, IH2.
  destruct (plus_quoter_no_separator c) as [H1 H2]. now rewrite H1, H2.
Qed.

(** [parse_qsl] reads a field of [urlencode] back. *)
Lemma parse_form_field (kv : string * string) :
  parse_field true (form_field kv) = Some kv.
Proof.
  destruct kv as [k v]. unfold parse_field, form_field. simpl fst; simpl snd.
  change ("=" ++ quote_plus v) with (String "=" (quote_plus v)).
  rewrite StrFacts.is_empty_app_cons.
  rewrite StrFacts.split1_app_sep by apply quote_plus_no_separator.
  rewrite orb_true_r.
  fold (unquote_plus (quote_plus k)). fold (unquote_plus (quote_plus v)).
  now rewrite !unquote_plus_quote_plus.
Qed.

Lemma form_field_no_ampersand (kv : string * string) :
  contains_char "&" (form_field kv) = false.
Proof.
  unfold form_field. rewrite !StrFacts.contains_char_app.
  destruct (quote_plus_no_separator (fst kv)) as [H1 _].
  destruct (quote_plus_no_separator (snd kv)) as [H2 _].
  now rewrite H1, H2.
Qed.

(** Decoding a form-encoded query gives back the fields that were encoded,
    in order and with their values. *)
Lemma parse_qsl_urlencode (fields : list (string * string)) :
  parse_qsl true (urlencode fields) = fields.
Proof.
  destruct fields as [|kv fields]; [reflexivity|].
  unfold parse_qsl, urlencode.
  change (fun kv0 : string * string => quote_plus (fst kv0) ++ "=" ++ quote_plus (snd kv0))
    with form_field.
  rewrite (StrFacts.split_join "&").
  - induction (kv :: fields) as [|f l IH]; [reflexivity|].
    simpl. now rewrite parse_form_field, IH.
  - discriminate.
  - apply Forall_forall. intros f Hin. apply in_map_iff in Hin.
    destruct Hin as [p [<- _]]. apply form_field_no_ampersand.
Qed.

End UrlFacts.

(** ** The authorization URL *)

Module AuthorizationUrl.
Import Str Urllib Effects GoogleAuth Spec.

(** C2.  For every client id the authorization URL is the provider's
    base URL, a question mark and a query string; the query string is the
    six form-encoded parameters in order; decoded, it holds exactly
    [client_id], [redirect_uri=http://localhost:8089/callback],
    [response_type=code], [scope], [access_type=offline] and
    [prompt=consent]; and the scope value is the configured scopes joined
    by spaces, each of them once and none left out. *)
Theorem auth_url_parameters (client_id : string) :
  exists query_string scope,
    get_auth_url client_id =
      "https://accounts.google.com/o/oauth2/v2/auth" ++ "?" ++ query_string /\
    query_string =
      "client_id=" ++ quote_plus client_id ++
      "&redirect_uri=http%3A%2F%2Flocalhost%3A8089%2Fcallback" ++
      "&response_type=code" ++
      "&scope=" ++ join "+" (map quote_plus SCOPES) ++
      "&access_type=offline" ++
      "&prompt=consent" /\
    parse_qsl true query_string =
      [ ("client_id", client_id);
        ("redirect_uri", "http://localhost:8089/callback");
        ("response_type", "code");
        ("scope", scope);
        ("access_type", "offline");
        ("prompt", "consent") ] /\
    scope = join " " SCOPES /\
    split " " scope = SCOPES /\
    NoDup SCOPES.
Proof.
  exists (urlencode (auth_params client_id)), (join " " SCOPES).
  split; [reflexivity|].
  split; [reflexivity|].
  split; [apply UrlFacts.parse_qsl_urlencode|].
  split; [reflexivity|].
  split; [reflexivity|].
  unfold SCOPES. repeat constructor; simpl; intuition discriminate.
Qed.

End AuthorizationUrl.

(** ** The token exchanger *)

Module TokenExchanger.
Import Str Urllib Effects GoogleAuth Spec.

Lemma in_range (status : Z) :
  200 <= status < 300 -> (200 <=? status) && (status <? 300) = true.
Proof. intros [H1 H2]. apply andb_true_iff. split; [apply Z.leb_le | apply Z.ltb_lt]; lia. Qed.

Lemma out_of_range (status : Z) :
  ~ (200 <= status < 300) -> (200 <=? status) && (status <? 300) = false.
Proof.
  intros H. apply andb_false_iff.
  destruct (Z.leb_spec 200 status); [|now left].
  destruct (Z.ltb_spec status 300); [|now right]. lia.
Qed.

(** C3, as the code has it.  When the token endpoint answers with a status
    outside 200..299, [exchange_code] sends its one request, prints
    [Error: ] followed by the response body to standard error and leaves
    through [sys.exit(1)]: nothing is printed to standard output, and
    whatever the caller would have done with a token set is not run.  The
    status code is not part of what is printed. *)
Theorem exchange_code_rejected (env : Env) (client_id client_secret code : string)
  (status : Z) (body : string) :
  token_endpoint env (token_request (exchange_fields client_id client_secret code)) =
    Response status body ->
  ~ (200 <= status < 300) ->
  let failure :=
    ([ UrlOpen (token_request (exchange_fields client_id client_secret code));
       Print stderr [Lit ("Error: " ++ body)] ], SysExit 1) in
  exchange_code env client_id client_secret code = failure /\
  (forall (A : Type) (caller : Json.value -> M A),
      bind (exchange_code env client_id client_secret code) caller =
      (fst failure, SysExit 1)) /\
  printed stdout (fst failure) = [] /\
  printed stderr (fst failure) = [[Lit ("Error: " ++ body)]].
Proof.
  intros Hanswer Hstatus failure.
  assert (E : exchange_code env client_id client_secret code = failure).
  { unfold exchange_code, urlopen.
    change (token_request _) with
      (token_request (exchange_fields client_id client_secret code)).
    rewrite Hanswer, (out_of_range _ Hstatus). reflexivity. }
  split; [exact E|]. split; [|split; reflexivity].
  intros A caller. rewrite E. reflexivity.
Qed.

(** C7.  [refresh_access_token] sends one request: a POST to the token
    endpoint with a form-encoded body that decodes to exactly
    [client_id], [client_secret], [refresh_token] and
    [grant_type=refresh_token].  When the endpoint answers with a status
    in 200..299 and the body of the specification's example, the function
    returns the decoded object: [access_token] is [X], [expires_in] is
    3600 and there is no [refresh_token]. *)
Theorem refresh_returns_token_set (env : Env)
  (client_id client_secret refresh_token : string) (status : Z) :
  let req := token_request (refresh_fields client_id client_secret refresh_token) in
  let tokens :=
    [ ("access_token", Json.Text "X");
      ("expires_in", Json.Int 3600);
      ("token_type", Json.Text "Bearer") ] in
  token_endpoint env req = Response status bearer_body ->
  200 <= status < 300 ->
  refresh_access_token env client_id client_secret refresh_token =
    ([UrlOpen req], Return (Json.Object tokens)) /\
  method req = "POST" /\
  full_url req = "https://oauth2.googleapis.com/token" /\
  req_headers req = [("Content-Type", "application/x-www-form-urlencoded")] /\
  parse_qsl true (data req) =
    [ ("client_id", client_id);
      ("client_secret", client_secret);
      ("refresh_token", refresh_token);
      ("grant_type", "refresh_token") ] /\
  Dict.get "access_token" tokens = Some (Json.Text "X") /\
  Dict.get "refresh_token" tokens = None /\
  Dict.get "expires_in" tokens = Some (Json.Int 3600).
Proof.
  intros req tokens Hanswer Hstatus.
  split.
  - unfold refresh_access_token, urlopen.
    change (token_request _) with req.
    rewrite Hanswer, (in_range _ Hstatus). reflexivity.
  - repeat split. apply UrlFacts.parse_qsl_urlencode.
Qed.

End TokenExchanger.

(** ** The command line *)

Module CommandLine.
Import Str Urllib Effects GoogleAuth Spec.

(** C8.  When a credential that the subcommand requires is missing after
    the flag and the environment variable have been consulted, [main]
    prints the usage error of the subcommand to standard error and leaves
    with status 1; that print is all it does, so no port is bound, no
    browser is opened and no request is sent. *)
Theorem missing_credential_is_usage_error (env : Env) (argv : Command) :
  missing_credential env argv ->
  main env argv = ([Print stderr [Lit (usage_error argv)]], SysExit 1) /\
  1 <> 0 /\
  network_calls (trace (main env argv)) = [].
Proof.
  intros H.
  assert (E : main env argv = ([Print stderr [Lit (usage_error argv)]], SysExit 1)).
  { destruct argv as [i s | i s r | i s r |]; simpl in H; unfold absent in H;
      [ | | | contradiction ]; unfold main;
      repeat match goal with
             | |- context [truthy ?x] => destruct (truthy x) eqn:?
             end;
      try reflexivity; exfalso; intuition congruence. }
  rewrite E. repeat split. lia.
Qed.

(** C10.  For the [token] subcommand with all three credentials present,
    when the token endpoint answers with a status in 200..299 and a JSON
    object that has no [access_token] member, [main] ends with an uncaught
    [KeyError] for [access_token]: after the request nothing is printed,
    neither a token nor an error message. *)
Theorem token_without_access_token (env : Env) (i s r : option string)
  (client_id client_secret refresh_token : string)
  (status : Z) (body : string) (members : Dict.t Json.value) :
  truthy (argument env i "GOOGLE_CLIENT_ID") = Some client_id ->
  truthy (argument env s "GOOGLE_CLIENT_SECRET") = Some client_secret ->
  truthy (argument env r "GOOGLE_REFRESH_TOKEN") = Some refresh_token ->
  token_endpoint env
    (token_request (refresh_fields client_id client_secret refresh_token)) =
    Response status body ->
  200 <= status < 300 ->
  Json.loads body = Some (Json.Object members) ->
  Dict.get "access_token" members = None ->
  main env (token i s r) =
    ([UrlOpen (token_request (refresh_fields client_id client_secret refresh_token))],
     Raise (KeyError "access_token")).
Proof.
  intros Hi Hs Hr Hanswer Hstatus Hbody Hmissing.
  unfold main. rewrite Hi, Hs, Hr.
  unfold refresh_access_token, urlopen, json_loads.
  change (token_request _) with
    (token_request (refresh_fields client_id client_secret refresh_token)).
  rewrite Hanswer, (TokenExchanger.in_range _ Hstatus). simpl.
  rewrite Hbody. simpl. rewrite Hmissing. reflexivity.
Qed.

End CommandLine.

(** ** The properties on concrete runs *)

Module Examples.
Import Str Urllib UrllibQs Listener Effects GoogleAuth Spec.

(** A favicon probe and a callback without parameters come first; the
    callback with the code ends the wait; the request after it is not
    served. *)
Lemma one_result_per_login_witness :
  let env :=
    sample_env
      [ target "/favicon.ico" "";
        target "/callback" "state=xyz";
        target "/callback" "code=abc123";
        target "/callback" "code=replayed" ]
      (Response 200 bearer_body) in
  port_free env = true /\
  exists tail,
    trace (run_auth_flow env "id" "secret") =
      (announcement "id" ++
       [ Handled (target "/favicon.ico" "") (mkReply 404 [] "");
         Handled (target "/callback" "state=xyz") (mkReply 400 [] "");
         Handled (target "/callback" "code=abc123")
           (mkReply 200 [("Content-Type", "text/html")] success_page);
         ServerClose ] ++ tail)%list /\
    handled tail = [].
Proof.
  intros env. split; [reflexivity|].
  destruct (CallbackListener.one_result_per_login env "id" "secret" eq_refl)
    as [[_ Hblocked] | [before [callback [after [server [reply [tail H]]]]]]].
  - discriminate Hblocked.
  - exists (skipn 9 (trace (run_auth_flow env "id" "secret"))).
    split; reflexivity.
Defined.

(** The specification's example [code=abc123]. *)
Lemma callback_code_gives_success_witness :
  (path (target "/callback" "code=abc123") = "/callback" /\
   values_of "code" "code=abc123" = ["abc123"]) /\
  do_GET (target "/callback" "code=abc123") idle =
    (mkServer (Some "abc123") None,
     mkReply 200 [("Content-Type", "text/html")] success_page) /\
  wait_for_callback [target "/callback" "code=abc123"; target "/favicon.ico" ""] idle =
    ([Handled (target "/callback" "code=abc123")
        (mkReply 200 [("Content-Type", "text/html")] success_page)],
     Return (mkServer (Some "abc123") None)).
Proof.
  split; [split; reflexivity|].
  apply (CallbackListener.callback_code_gives_success
           (target "/callback" "code=abc123") "abc123" []
           [target "/favicon.ico" ""]); reflexivity.
Defined.

(** The specification's example
    [error=access_denied&error_description=User+denied+access]. *)
Lemma callback_error_gives_failure_witness :
  let request :=
    target "/callback" "error=access_denied&error_description=User+denied+access" in
  (path request = "/callback" /\
   values_of "code" (query request) = [] /\
   values_of "error" (query request) = ["access_denied"]) /\
  do_GET request idle =
    (mkServer None (Some "User denied access"),
     mkReply 400 [("Content-Type", "text/html")]
       "<html><body><h1>Error</h1><p>User denied access</p></body></html>") /\
  wait_for_callback [request; target "/callback" "code=late"] idle =
    ([Handled request
        (mkReply 400 [("Content-Type", "text/html")]
           "<html><body><h1>Error</h1><p>User denied access</p></body></html>")],
     Return (mkServer None (Some "User denied access"))).
Proof.
  intros request. split; [repeat split|].
  apply (CallbackListener.callback_error_gives_failure
           request "access_denied" [] [target "/callback" "code=late"]);
    reflexivity.
Defined.

(** A favicon probe and a callback with neither parameter. *)
Lemma stray_requests_keep_waiting_witness :
  let requests := [target "/favicon.ico" ""; target "/callback" "state=xyz"] in
  Forall stray requests /\
  (forall request server,
      In request requests ->
      do_GET request server = (server, stray_reply request)) /\
  wait_for_callback requests idle =
    ([ Handled (target "/favicon.ico" "") (mkReply 404 [] "");
       Handled (target "/callback" "state=xyz") (mkReply 400 [] "") ], Blocked).
Proof.
  intros requests.
  assert (H : Forall stray requests).
  { constructor; [left; discriminate|].
    constructor; [right; split; reflexivity|]. constructor. }
  split; [exact H|].
  apply (CallbackListener.stray_requests_keep_waiting requests H).
Defined.

(** A request that carries both a code and an error. *)
Lemma code_takes_precedence_witness :
  let request := target "/callback" "code=abc123&error=access_denied" in
  (path request = "/callback" /\
   values_of "code" (query request) = ["abc123"] /\
   query_has "error" (query request) = true) /\
  auth_code (fst (do_GET request idle)) = Some "abc123" /\
  auth_error (fst (do_GET request idle)) = None /\
  status (snd (do_GET request idle)) = 200 /\
  body (snd (do_GET request idle)) = success_page.
Proof.
  intros request. split; [repeat split|].
  apply (CallbackListener.code_takes_precedence request idle "abc123" []);
    reflexivity.
Defined.

(** The specification's example: HTTP 400 with an [invalid_grant] body. *)
Lemma exchange_code_rejected_witness :
  let env := sample_env [] (Response 400 invalid_grant_body) in
  ~ (200 <= 400 < 300) /\
  exchange_code env "id" "secret" "abc123" =
    ([ UrlOpen (token_request (exchange_fields "id" "secret" "abc123"));
       Print stderr [Lit ("Error: " ++ invalid_grant_body)] ], SysExit 1).
Proof.
  intros env. split; [lia|].
  apply (TokenExchanger.exchange_code_rejected env "id" "secret" "abc123"
           400 invalid_grant_body); [reflexivity | lia].
Defined.

(** The specification's refresh example. *)
Lemma refresh_returns_token_set_witness :
  let env := sample_env [] (Response 200 bearer_body) in
  200 <= 200 < 300 /\
  refresh_access_token env "id" "secret" "1//refresh" =
    ([UrlOpen (token_request (refresh_fields "id" "secret" "1//refresh"))],
     Return (Json.Object
               [ ("access_token", Json.Text "X");
                 ("expires_in", Json.Int 3600);
                 ("token_type", Json.Text "Bearer") ])).
Proof.
  intros env. split; [lia|].
  apply (TokenExchanger.refresh_returns_token_set env "id" "secret" "1//refresh" 200);
    [reflexivity | lia].
Defined.

(** [refresh] without a client secret, on the command line or in the
    environment. *)
Lemma missing_credential_is_usage_error_witness :
  let env := sample_env [] Unreachable in
  let argv := refresh (Some "id") None (Some "1//refresh") in
  missing_credential env argv /\
  main env argv =
    ([Print stderr [Lit "Error: client-id, client-secret, and refresh-token required"]],
     SysExit 1) /\
  1 <> 0 /\
  network_calls (trace (main env argv)) = [].
Proof.
  intros env argv.
  assert (H : missing_credential env argv) by (right; left; reflexivity).
  split; [exact H|].
  apply (CommandLine.missing_credential_is_usage_error env argv H).
Defined.

(** [token] against an endpoint that answers 200 with an error object. *)
Lemma token_without_access_token_witness :
  let env := sample_env [] (Response 200 invalid_grant_body) in
  (200 <= 200 < 300 /\
   Json.loads invalid_grant_body =
     Some (Json.Object [("error", Json.Text "invalid_grant")])) /\
  main env (token (Some "id") (Some "secret") (Some "1//refresh")) =
    ([UrlOpen (token_request (refresh_fields "id" "secret" "1//refresh"))],
     Raise (KeyError "access_token")).
Proof.
  intros env. split; [split; [lia | reflexivity]|].
  apply (CommandLine.token_without_access_token env
           (Some "id") (Some "secret") (Some "1//refresh")
           "id" "secret" "1//refresh" 200 invalid_grant_body
           [("error", Json.Text "invalid_grant")]);
    try reflexivity; lia.
Defined.

End Examples.

(** ** Where the code departs from the specification's wording *)

Module Departures.
Import Str Urllib UrllibQs Listener Effects GoogleAuth Spec.

(** C3 as stated fails: for HTTP 400 with the [invalid_grant] body the
    function does not raise an error that carries the status, it leaves
    through [sys.exit(1)]; what it prints to standard error is the body
    alone, in which the status code does not occur; and the whole run is
    the same as for HTTP 401 with that body. *)
Lemma status_code_not_reported :
  result (exchange_code (sample_env [] (Response 400 invalid_grant_body))
            "id" "secret" "abc123") = SysExit 1 /\
  printed stderr
    (trace (exchange_code (sample_env [] (Response 400 invalid_grant_body))
              "id" "secret" "abc123")) =
    [[Lit ("Error: " ++ invalid_grant_body)]] /\
  is_substring "400" ("Error: " ++ invalid_grant_body) = false /\
  exchange_code (sample_env [] (Response 400 invalid_grant_body)) "id" "secret" "abc123" =
  exchange_code (sample_env [] (Response 401 invalid_grant_body)) "id" "secret" "abc123".
Proof. repeat split. Qed.

(** C4 as stated fails: the query string [code=] contains a [code]
    parameter, yet the request is answered 400, no result is recorded and
    the loop keeps waiting. *)
Lemma blank_code_is_not_success :
  path (target "/callback" "code=") = "/callback" /\
  query_has "code" "code=" = true /\
  do_GET (target "/callback" "code=") idle = (idle, mkReply 400 [] "") /\
  wait_for_callback [target "/callback" "code="] idle =
    ([Handled (target "/callback" "code=") (mkReply 400 [] "")], Blocked).
Proof. repeat split. Qed.

(** C5 as stated fails: the query string [code=abc123&error=access_denied]
    contains an [error] parameter, yet Success is recorded and the reply
    is 200. *)
Lemma error_beside_code_is_success :
  path (target "/callback" "code=abc123&error=access_denied") = "/callback" /\
  query_has "error" "code=abc123&error=access_denied" = true /\
  do_GET (target "/callback" "code=abc123&error=access_denied") idle =
    (mkServer (Some "abc123") None,
     mkReply 200 [("Content-Type", "text/html")] success_page).
Proof. repeat split. Qed.

(** C9 as stated fails: the query string [code=&error=access_denied]
    contains both parameters, yet Failure is recorded and the reply is
    400. *)
Lemma blank_code_loses_to_error :
  path (target "/callback" "code=&error=access_denied") = "/callback" /\
  query_has "code" "code=&error=access_denied" = true /\
  query_has "error" "code=&error=access_denied" = true /\
  do_GET (target "/callback" "code=&error=access_denied") idle =
    (mkServer None (Some "access_denied"),
     mkReply 400 [("Content-Type", "text/html")]
       "<html><body><h1>Error</h1><p>access_denied</p></body></html>").
Proof. repeat split. Qed.

End Departures.

(** * Further properties of the code *)

(** ** Values the listener records *)

Module RecordedFacts.
Import Str Urllib UrllibQs Listener Effects GoogleAuth Spec.

Lemma split_not_nil (sep : ascii) (s : string) : split sep s <> [].
Proof.
  induction s as [|d s IH]; simpl; [discriminate|].
  destruct (Ascii.eqb d sep); [discriminate|].
  destruct (split sep s); discriminate.
Qed.

Lemma unquote_item_not_empty (item : string) : is_empty (unquote_item item) = false.
Proof.
  destruct item as [|h1 [|h2 rest]]; simpl; try reflexivity.
  destruct (hex_value h1), (hex_value h2); reflexivity.
Qed.

Lemma is_empty_app (a b : string) : is_empty (a ++ b) = is_empty a && is_empty b.
Proof. destruct a; reflexivity. Qed.

(** Unquoting a string that is not empty gives a string that is not
    empty. *)
Lemma unquote_is_empty (s : string) : is_empty (unquote s) = is_empty s.
Proof.
  destruct s as [|c t]; [reflexivity|].
  destruct (Ascii.eqb c "%") eqn:E.
  - apply Ascii.eqb_eq in E. subst c. unfold unquote. simpl.
    destruct (split "%" t) as [|h tl] eqn:S; [now apply split_not_nil in S|].
    change (map unquote_item (h :: tl)) with (unquote_item h :: map unquote_item tl).
    rewrite StrFacts.concat_cons, is_empty_app, unquote_item_not_empty.
    reflexivity.
  - apply Ascii.eqb_neq in E. now rewrite UrlFacts.unquote_plain.
Qed.

Lemma replace_char_is_empty (a b : ascii) (s : string) :
  is_empty (replace_char a b s) = is_empty s.
Proof. destruct s; reflexivity. Qed.

Lemma parse_field_value_not_empty (f n v : string) :
  parse_field false f = Some (n, v) -> is_empty v = false.
Proof.
  unfold parse_field. destruct (is_empty f); [discriminate|].
  destruct (split1 "=" f) as [n0 [v0|]]; [|discriminate].
  rewrite orb_false_r. destruct (is_empty v0) eqn:E; simpl; [discriminate|].
  intros H. injection H as _ <-.
  now rewrite unquote_is_empty, replace_char_is_empty.
Qed.

(** Without blank values, [parse_qsl] gives no empty value. *)
Lemma parse_qsl_value_not_empty (qs n v : string) :
  In (n, v) (parse_qsl false qs) -> is_empty v = false.
Proof.
  unfold parse_qsl. induction (split "&" qs) as [|f fields IH]; simpl; [tauto|].
  destruct (parse_field false f) as [[n0 v0]|] eqn:E; [|exact IH].
  intros [H | H]; [|auto].
  injection H as -> ->. eapply parse_field_value_not_empty; eauto.
Qed.

Lemma values_of_not_empty (k qs v : string) :
  In v (values_of k qs) -> is_empty v = false.
Proof.
  unfold values_of, named. intros H. apply in_map_iff in H.
  destruct H as [[n v0] [Hv Hin]]. simpl in Hv. subst v0.
  apply filter_In in Hin. destruct Hin as [Hin _].
  eapply parse_qsl_value_not_empty; eauto.
Qed.

Lemma hd_values_not_empty (k qs v : string) (more : list string) :
  values_of k qs = v :: more -> is_empty v = false.
Proof.
  intros H. apply (values_of_not_empty k qs). rewrite H. now left.
Qed.

End RecordedFacts.

(** ** Traces *)

Module TraceFacts.
Import Str Urllib UrllibQs Listener Effects GoogleAuth Spec Notions.

Lemma network_calls_app (a b : list event) :
  network_calls (a ++ b) = (network_calls a ++ network_calls b)%list.
Proof.
  induction a as [|e a IH]; [reflexivity|].
  destruct e; simpl; rewrite IH; reflexivity.
Qed.

Lemma printed_app (file : stream) (a b : list event) :
  printed file (a ++ b) = (printed file a ++ printed file b)%list.
Proof.
  induction a as [|e a IH]; [reflexivity|].
  destruct e as [f text| | | | |]; simpl; try exact IH.
  destruct f, file; simpl; rewrite IH; reflexivity.
Qed.

Lemma served_calls_nothing (requests : list ParseResult) :
  network_calls (served requests) = [].
Proof. induction requests; [reflexivity | exact IHrequests]. Qed.

Lemma served_prints_nothing (file : stream) (requests : list ParseResult) :
  printed file (served requests) = [].
Proof. induction requests; [reflexivity | exact IHrequests]. Qed.

(** The four ways [do_GET] can go. *)
Lemma do_GET_cases (request : ParseResult) (server : HTTPServer) :
  (path request <> "/callback" /\
   do_GET request server = (server, mkReply 404 [] "")) \/
  (path request = "/callback" /\
   exists code more,
     values_of "code" (query request) = code :: more /\
     do_GET request server =
       (mkServer (Some code) (auth_error server),
        mkReply 200 [("Content-Type", "text/html")] success_page)) \/
  (path request = "/callback" /\
   values_of "code" (query request) = [] /\
   exists error more,
     values_of "error" (query request) = error :: more /\
     do_GET request server =
       (mkServer (auth_code server)
          (Some (hd error (values_of "error_description" (query request)))),
        mkReply 400 [("Content-Type", "text/html")]
          (error_page (hd error (values_of "error_description" (query request)))))) \/
  (path request = "/callback" /\
   values_of "code" (query request) = [] /\
   values_of "error" (query request) = [] /\
   do_GET request server = (server, mkReply 400 [] "")).
Proof.
  destruct (String.eqb (path request) "/callback") eqn:E.
  - apply String.eqb_eq in E. right.
    destruct (values_of "code" (query request)) as [|code more] eqn:Hc.
    + right. destruct (values_of "error" (query request)) as [|error more] eqn:He.
      * right. repeat split; auto. now apply HandlerFacts.do_GET_neither.
      * left. repeat split; auto. exists error, more. split; [reflexivity|].
        now apply (HandlerFacts.do_GET_error request server error more).
    + left. split; [exact E|]. exists code, more. split; [reflexivity|].
      now apply (HandlerFacts.do_GET_code request server code more).
  - apply String.eqb_neq in E. left. split; [exact E|].
    now apply HandlerFacts.do_GET_other_path.
Qed.

(** The reason of a recorded failure is not empty. *)
Lemma reason_not_empty (qs error : string) (more : list string) :
  values_of "error" qs = error :: more ->
  is_empty (hd error (values_of "error_description" qs)) = false.
Proof.
  intros He. destruct (values_of "error_description" qs) as [|d ds] eqn:Hd; simpl.
  - eapply RecordedFacts.hd_values_not_empty; eauto.
  - eapply RecordedFacts.hd_values_not_empty; eauto.
Qed.

Lemma truthy_not_empty (v : string) : is_empty v = false -> truthy (Some v) = Some v.
Proof. destruct v; [discriminate | reflexivity]. Qed.

(** [run_auth_flow] once the loop has returned with a code. *)
Lemma run_auth_flow_with_code (env : Env) (i s : string)
  (tr : list event) (code : string) :
  port_free env = true ->
  wait_for_callback (browser env) idle = (tr, Return (mkServer (Some code) None)) ->
  run_auth_flow env i s =
    ((announcement i ++ tr ++
      ServerClose :: Print stdout [Lit "Exchanging code for tokens..."]
        :: trace (exchange_code env i s code))%list,
     result (exchange_code env i s code)).
Proof.
  intros Hport Hwait. unfold run_auth_flow, new_server. rewrite Hport.
  change (mkServer None None) with idle. simpl. rewrite Hwait. simpl.
  destruct (exchange_code env i s code) as [tr' o]. reflexivity.
Qed.

(** [run_auth_flow] once the loop has returned with an error. *)
Lemma run_auth_flow_with_error (env : Env) (i s : string)
  (tr : list event) (reason : string) :
  port_free env = true ->
  is_empty reason = false ->
  wait_for_callback (browser env) idle = (tr, Return (mkServer None (Some reason))) ->
  run_auth_flow env i s =
    ((announcement i ++ tr ++
      [ServerClose; Print stderr [Lit ("Authorization failed: " ++ reason)]])%list,
     SysExit 1).
Proof.
  intros Hport Hreason Hwait. destruct reason as [|c reason]; [discriminate|].
  unfold run_auth_flow, new_server. rewrite Hport.
  change (mkServer None None) with idle. simpl. rewrite Hwait. reflexivity.
Qed.

(** [exchange_code] sends its one request whatever comes back. *)
Lemma exchange_code_calls (env : Env) (i s c : string) :
  network_calls (trace (exchange_code env i s c)) =
    [token_request (exchange_fields i s c)].
Proof.
  unfold exchange_code, urlopen, json_loads. simpl.
  destruct (token_endpoint env _) as [status body|]; simpl; [|reflexivity].
  destruct ((200 <=? status) && (status <? 300)); simpl; [|reflexivity].
  destruct (Json.loads body); reflexivity.
Qed.

Lemma refresh_access_token_calls (env : Env) (i s r : string) :
  network_calls (trace (refresh_access_token env i s r)) =
    [token_request (refresh_fields i s r)].
Proof.
  unfold refresh_access_token, urlopen, json_loads. simpl.
  destruct (token_endpoint env _) as [status body|]; simpl; [|reflexivity].
  destruct ((200 <=? status) && (status <? 300)); simpl; [|reflexivity].
  destruct (Json.loads body); reflexivity.
Qed.

End TraceFacts.

(** ** The login flow from the first request to the last print *)

Module LoginFlow.
Import Str Urllib UrllibQs Listener Effects GoogleAuth Spec Notions.

Lemma code_produces_result (callback : ParseResult) (code : string) (more : list string) :
  path callback = "/callback" ->
  values_of "code" (query callback) = code :: more ->
  produces_result callback = true.
Proof.
  intros Hp Hc. unfold produces_result.
  now rewrite (HandlerFacts.do_GET_code callback idle code more Hp Hc).
Qed.

Lemma error_produces_result (callback : ParseResult) (error : string) (more : list string) :
  path callback = "/callback" ->
  values_of "code" (query callback) = [] ->
  values_of "error" (query callback) = error :: more ->
  produces_result callback = true.
Proof.
  intros Hp Hc He. unfold produces_result.
  now rewrite (HandlerFacts.do_GET_error callback idle error more Hp Hc He).
Qed.

(** X1.  The code that the callback delivers is the code that is
    exchanged.  When the first request that records a result carries a
    code, [run_auth_flow] closes the server and then sends exactly one
    request to the token endpoint; its form body decodes to the client
    id, the client secret, the captured code, the grant type and the
    redirect URI; and the flow ends as that exchange ends. *)
Theorem login_exchanges_captured_code (env : Env) (client_id client_secret : string)
  (before : list ParseResult) (callback : ParseResult) (after : list ParseResult)
  (code : string) (more : list string) :
  port_free env = true ->
  browser env = (before ++ callback :: after)%list ->
  Forall (fun x => produces_result x = false) before ->
  path callback = "/callback" ->
  values_of "code" (query callback) = code :: more ->
  run_auth_flow env client_id client_secret =
    ((announcement client_id ++ served before ++
      [ Handled callback (mkReply 200 [("Content-Type", "text/html")] success_page);
        ServerClose;
        Print stdout [Lit "Exchanging code for tokens..."] ] ++
      trace (exchange_code env client_id client_secret code))%list,
     result (exchange_code env client_id client_secret code)) /\
  network_calls (trace (run_auth_flow env client_id client_secret)) =
    [token_request (exchange_fields client_id client_secret code)] /\
  parse_qsl true (data (token_request (exchange_fields client_id client_secret code))) =
    [ ("client_id", client_id);
      ("client_secret", client_secret);
      ("code", code);
      ("grant_type", "authorization_code");
      ("redirect_uri", "http://localhost:8089/callback") ].
Proof.
  intros Hport Hbrowser Hbefore Hp Hc.
  pose proof (code_produces_result callback code more Hp Hc) as Hres.
  destruct (FlowFacts.wait_until_first_result before callback after Hbefore Hres)
    as [_ Hwait].
  rewrite (HandlerFacts.do_GET_code callback idle code more Hp Hc) in Hwait.
  simpl fst in Hwait; simpl snd in Hwait. rewrite <- Hbrowser in Hwait.
  assert (E := TraceFacts.run_auth_flow_with_code env client_id client_secret _ code
                 Hport Hwait).
  rewrite <- app_assoc in E.
  split; [exact E|]. split; [|apply UrlFacts.parse_qsl_urlencode].
  rewrite E. unfold trace at 1. cbn [fst].
  rewrite !TraceFacts.network_calls_app, TraceFacts.served_calls_nothing.
  change (network_calls (announcement client_id)) with (@nil Request).
  cbn [app network_calls]. apply TraceFacts.exchange_code_calls.
Qed.

(** X2.  When the first request that records a result carries an error
    and no code, the [login] subcommand closes the server, prints
    [Authorization failed: ] and the reason to standard error and leaves
    with status 1; no request is sent to the token endpoint. *)
Theorem login_denied_exits_before_exchange (env : Env) (fi fs : option string)
  (client_id client_secret : string)
  (before : list ParseResult) (callback : ParseResult) (after : list ParseResult)
  (error : string) (more : list string) :
  truthy (argument env fi "GOOGLE_CLIENT_ID") = Some client_id ->
  truthy (argument env fs "GOOGLE_CLIENT_SECRET") = Some client_secret ->
  port_free env = true ->
  browser env = (before ++ callback :: after)%list ->
  Forall (fun x => produces_result x = false) before ->
  path callback = "/callback" ->
  values_of "code" (query callback) = [] ->
  values_of "error" (query callback) = error :: more ->
  let reason := hd error (values_of "error_description" (query callback)) in
  main env (login fi fs) =
    ((announcement client_id ++ served before ++
      [ Handled callback
          (mkReply 400 [("Content-Type", "text/html")] (error_page reason));
        ServerClose;
        Print stderr [Lit ("Authorization failed: " ++ reason)] ])%list,
     SysExit 1) /\
  network_calls (trace (main env (login fi fs))) = [] /\
  printed stderr (trace (main env (login fi fs))) =
    [[Lit ("Authorization failed: " ++ reason)]].
Proof.
  intros Hi Hs Hport Hbrowser Hbefore Hp Hc He reason.
  pose proof (error_produces_result callback error more Hp Hc He) as Hres.
  destruct (FlowFacts.wait_until_first_result before callback after Hbefore Hres)
    as [_ Hwait].
  rewrite (HandlerFacts.do_GET_error callback idle error more Hp Hc He) in Hwait.
  fold reason in Hwait. simpl fst in Hwait; simpl snd in Hwait.
  rewrite <- Hbrowser in Hwait.
  assert (E := TraceFacts.run_auth_flow_with_error env client_id client_secret _ reason
                 Hport (TraceFacts.reason_not_empty _ _ _ He) Hwait).
  rewrite <- app_assoc in E.
  assert (M : main env (login fi fs) =
              ((announcement client_id ++ served before ++
                [ Handled callback
                    (mkReply 400 [("Content-Type", "text/html")] (error_page reason));
                  ServerClose;
                  Print stderr [Lit ("Authorization failed: " ++ reason)] ])%list,
               SysExit 1)).
  { unfold main. rewrite Hi, Hs, E. reflexivity. }
  split; [exact M|]. rewrite M. unfold trace. cbn [fst]. split.
  - rewrite !TraceFacts.network_calls_app, TraceFacts.served_calls_nothing. reflexivity.
  - rewrite !TraceFacts.printed_app, TraceFacts.served_prints_nothing. reflexivity.
Qed.


(** X4.  When the waiting loop returns, the listener holds either a code
    that is not empty and no error, or an error reason that is not empty
    and no code: the truth test on [auth_error] tells the two apart, and
    the code handed to the exchange is never [None]. *)
Theorem waiting_loop_returns_usable_result
  (incoming : list ParseResult) (tr : list event) (server : HTTPServer) :
  wait_for_callback incoming idle = (tr, Return server) ->
  (exists code,
      server = mkServer (Some code) None /\ is_empty code = false) \/
  (exists reason,
      server = mkServer None (Some reason) /\ is_empty reason = false).
Proof.
  intros Hwait.
  destruct (FlowFacts.first_result_split incoming)
    as [Hnone | [before [callback [after [-> [Hbefore Hres]]]]]].
  - rewrite (FlowFacts.wait_for_ever _ Hnone) in Hwait. discriminate.
  - destruct (FlowFacts.wait_until_first_result before callback after Hbefore Hres)
      as [_ E].
    rewrite E in Hwait. injection Hwait as _ <-.
    unfold produces_result in Hres.
    destruct (TraceFacts.do_GET_cases callback idle)
      as [[_ G] | [[_ [code [more [Hc G]]]] | [[_ [_ [error [more [He G]]]]] | [_ [_ [_ G]]]]]];
      rewrite G in *; simpl in *; try discriminate.
    + left. exists code. split; [reflexivity|].
      eapply RecordedFacts.hd_values_not_empty; eauto.
    + right. eexists. split; [reflexivity|].
      eapply TraceFacts.reason_not_empty; eauto.
Qed.

End LoginFlow.

(** ** The refresh and token subcommands *)

Module RefreshCommands.
Import Str Urllib Effects GoogleAuth Spec Notions.

(** [refresh_access_token] on each kind of answer. *)
Lemma refresh_on_answer (env : Env) (i s r : string) :
  refresh_access_token env i s r =
  let req := token_request (refresh_fields i s r) in
  match token_endpoint env req with
  | Response status body =>
      if (200 <=? status) && (status <? 300) then
        match Json.loads body with
        | Some v => ([UrlOpen req], Return v)
        | None => ([UrlOpen req], Raise JSONDecodeError)
        end
      else ([UrlOpen req; Print stderr [Lit ("Error: " ++ body)]], SysExit 1)
  | Unreachable => ([UrlOpen req], Raise URLError)
  end.
Proof.
  unfold refresh_access_token, urlopen, json_loads.
  change (token_request _) with (token_request (refresh_fields i s r)).
  cbv zeta.
  destruct (token_endpoint env _) as [status body|]; [|reflexivity].
  destruct ((200 <=? status) && (status <? 300)); [|reflexivity].
  cbn. destruct (Json.loads body); reflexivity.
Qed.

(** X5.  When the token endpoint answers with a status outside 200..299,
    the [refresh] and [token] subcommands print [Error: ] and the response
    body to standard error and leave with status 1; nothing is printed to
    standard output. *)
Theorem refresh_rejected_exits (env : Env) (fi fs fr : option string)
  (client_id client_secret refresh_token : string) (status : Z) (body : string) :
  truthy (argument env fi "GOOGLE_CLIENT_ID") = Some client_id ->
  truthy (argument env fs "GOOGLE_CLIENT_SECRET") = Some client_secret ->
  truthy (argument env fr "GOOGLE_REFRESH_TOKEN") = Some refresh_token ->
  token_endpoint env
    (token_request (refresh_fields client_id client_secret refresh_token)) =
    Response status body ->
  ~ (200 <= status < 300) ->
  let failure :=
    ([ UrlOpen (token_request (refresh_fields client_id client_secret refresh_token));
       Print stderr [Lit ("Error: " ++ body)] ], SysExit 1) in
  main env (refresh fi fs fr) = failure /\
  main env (token fi fs fr) = failure /\
  printed stdout (fst failure) = [].
Proof.
  intros Hi Hs Hr Hanswer Hstatus failure.
  pose proof (refresh_on_answer env client_id client_secret refresh_token) as E.
  cbv zeta in E. rewrite Hanswer, (TokenExchanger.out_of_range _ Hstatus) in E.
  repeat split; unfold main; rewrite Hi, Hs, Hr, E; reflexivity.
Qed.

(** X6.  When the token endpoint answers with a status in 200..299 and a
    body that is not JSON, the decoding error is not handled: the
    [refresh] and [token] subcommands end with it after their one request
    and print nothing. *)
Theorem malformed_response_raises (env : Env) (fi fs fr : option string)
  (client_id client_secret refresh_token : string) (status : Z) (body : string) :
  truthy (argument env fi "GOOGLE_CLIENT_ID") = Some client_id ->
  truthy (argument env fs "GOOGLE_CLIENT_SECRET") = Some client_secret ->
  truthy (argument env fr "GOOGLE_REFRESH_TOKEN") = Some refresh_token ->
  token_endpoint env
    (token_request (refresh_fields client_id client_secret refresh_token)) =
    Response status body ->
  200 <= status < 300 ->
  Json.loads body = None ->
  let failure :=
    ([UrlOpen (token_request (refresh_fields client_id client_secret refresh_token))],
     Raise JSONDecodeError) in
  main env (refresh fi fs fr) = failure /\
  main env (token fi fs fr) = failure.
Proof.
  intros Hi Hs Hr Hanswer Hstatus Hbody failure.
  pose proof (refresh_on_answer env client_id client_secret refresh_token) as E.
  cbv zeta in E. rewrite Hanswer, (TokenExchanger.in_range _ Hstatus), Hbody in E.
  split; unfold main; rewrite Hi, Hs, Hr, E; reflexivity.
Qed.

(** X7.  When the token endpoint cannot be reached, the transport error
    is not handled either: the [refresh] and [token] subcommands end with
    it and print nothing. *)
Theorem unreachable_endpoint_raises (env : Env) (fi fs fr : option string)
  (client_id client_secret refresh_token : string) :
  truthy (argument env fi "GOOGLE_CLIENT_ID") = Some client_id ->
  truthy (argument env fs "GOOGLE_CLIENT_SECRET") = Some client_secret ->
  truthy (argument env fr "GOOGLE_REFRESH_TOKEN") = Some refresh_token ->
  token_endpoint env
    (token_request (refresh_fields client_id client_secret refresh_token)) =
    Unreachable ->
  let failure :=
    ([UrlOpen (token_request (refresh_fields client_id client_secret refresh_token))],
     Raise URLError) in
  main env (refresh fi fs fr) = failure /\
  main env (token fi fs fr) = failure.
Proof.
  intros Hi Hs Hr Hanswer failure.
  pose proof (refresh_on_answer env client_id client_secret refresh_token) as E.
  cbv zeta in E. rewrite Hanswer in E.
  split; unfold main; rewrite Hi, Hs, Hr, E; reflexivity.
Qed.


(** X9.  The [refresh] subcommand prints whatever JSON value the token
    endpoint sends with a status in 200..299, an object or not, and ends
    normally; the [token] subcommand ends with a type error when that
    value is not an object. *)
Theorem refresh_prints_any_json (env : Env) (fi fs fr : option string)
  (client_id client_secret refresh_token : string)
  (status : Z) (body : string) (v : Json.value) :
  truthy (argument env fi "GOOGLE_CLIENT_ID") = Some client_id ->
  truthy (argument env fs "GOOGLE_CLIENT_SECRET") = Some client_secret ->
  truthy (argument env fr "GOOGLE_REFRESH_TOKEN") = Some refresh_token ->
  token_endpoint env
    (token_request (refresh_fields client_id client_secret refresh_token)) =
    Response status body ->
  200 <= status < 300 ->
  Json.loads body = Some v ->
  main env (refresh fi fs fr) =
    ([ UrlOpen (token_request (refresh_fields client_id client_secret refresh_token));
       Print stdout [Dumps v] ], Return tt) /\
  ((forall members, v <> Json.Object members) ->
   main env (token fi fs fr) =
     ([UrlOpen (token_request (refresh_fields client_id client_secret refresh_token))],
      Raise TypeError)).
Proof.
  intros Hi Hs Hr Hanswer Hstatus Hbody.
  pose proof (refresh_on_answer env client_id client_secret refresh_token) as E.
  cbv zeta in E. rewrite Hanswer, (TokenExchanger.in_range _ Hstatus), Hbody in E.
  split.
  - unfold main. rewrite Hi, Hs, Hr, E. reflexivity.
  - intros Hv. unfold main. rewrite Hi, Hs, Hr, E.
    destruct v; try reflexivity. now destruct (Hv members).
Qed.

(** X10.  A flag that is given wins over the environment variable, and a
    flag that is not given falls back to it: the request of [refresh] and
    of [token] carries the three flag values when all are given and not
    empty, whatever the environment holds, and the three environment
    values when no flag is given. *)
Theorem flags_override_environment (env : Env) (a b c : string) :
  is_empty a = false -> is_empty b = false -> is_empty c = false ->
  network_calls (trace (main env (refresh (Some a) (Some b) (Some c)))) =
    [token_request (refresh_fields a b c)] /\
  network_calls (trace (main env (token (Some a) (Some b) (Some c)))) =
    [token_request (refresh_fields a b c)] /\
  (environ env "GOOGLE_CLIENT_ID" = Some a ->
   environ env "GOOGLE_CLIENT_SECRET" = Some b ->
   environ env "GOOGLE_REFRESH_TOKEN" = Some c ->
   network_calls (trace (main env (refresh None None None))) =
     [token_request (refresh_fields a b c)] /\
   network_calls (trace (main env (token None None None))) =
     [token_request (refresh_fields a b c)]).
Proof.
  intros Ha Hb Hc.
  assert (R : forall fi fs fr,
             truthy (argument env fi "GOOGLE_CLIENT_ID") = Some a ->
             truthy (argument env fs "GOOGLE_CLIENT_SECRET") = Some b ->
             truthy (argument env fr "GOOGLE_REFRESH_TOKEN") = Some c ->
             network_calls (trace (main env (refresh fi fs fr))) =
               [token_request (refresh_fields a b c)] /\
             network_calls (trace (main env (token fi fs fr))) =
               [token_request (refresh_fields a b c)]).
  { intros fi fs fr Hi Hs Hr. unfold main.
    rewrite Hi, Hs, Hr, refresh_on_answer. cbv zeta.
    destruct (token_endpoint env _) as [status body|]; [|split; reflexivity].
    destruct ((200 <=? status) && (status <? 300)); [|split; reflexivity].
    destruct (Json.loads body) as [v|]; [|split; reflexivity].
    split; [reflexivity|].
    destruct v; try reflexivity.
    simpl. destruct (Dict.get "access_token" members); reflexivity. }
  pose proof (TraceFacts.truthy_not_empty a Ha) as Ta.
  pose proof (TraceFacts.truthy_not_empty b Hb) as Tb.
  pose proof (TraceFacts.truthy_not_empty c Hc) as Tc.
  split; [apply (R (Some a) (Some b) (Some c)); assumption|].
  split; [apply (R (Some a) (Some b) (Some c)); assumption|].
  intros Ea Eb Ec. apply (R None None None); simpl; rewrite ?Ea, ?Eb, ?Ec; assumption.
Qed.

End RefreshCommands.

(** ** The login subcommand to its last line *)

Module LoginCommand.
Import Str Urllib UrllibQs Listener Effects GoogleAuth Spec Notions.

(** [exchange_code] on each kind of answer. *)
Lemma exchange_on_answer (env : Env) (i s c : string) :
  exchange_code env i s c =
  let req := token_request (exchange_fields i s c) in
  match token_endpoint env req with
  | Response status body =>
      if (200 <=? status) && (status <? 300) then
        match Json.loads body with
        | Some v => ([UrlOpen req], Return v)
        | None => ([UrlOpen req], Raise JSONDecodeError)
        end
      else ([UrlOpen req; Print stderr [Lit ("Error: " ++ body)]], SysExit 1)
  | Unreachable => ([UrlOpen req], Raise URLError)
  end.
Proof.
  unfold exchange_code, urlopen, json_loads.
  change (token_request _) with (token_request (exchange_fields i s c)).
  cbv zeta.
  destruct (token_endpoint env _) as [status body|]; [|reflexivity].
  destruct ((200 <=? status) && (status <? 300)); [|reflexivity].
  cbn. destruct (Json.loads body); reflexivity.
Qed.



(** X12.  A flag given with an empty value is not replaced by the
    environment variable: whatever the environment holds, the command
    prints its usage error and leaves with status 1 without doing anything
    else. *)
Theorem empty_flag_shadows_environment (env : Env) (fi fs fr : option string) :
  fi = Some "" \/ fs = Some "" \/ fr = Some "" ->
  main env (refresh fi fs fr) =
    ([Print stderr [Lit "Error: client-id, client-secret, and refresh-token required"]],
     SysExit 1) /\
  main env (token fi fs fr) =
    ([Print stderr [Lit "Error: client-id, client-secret, and refresh-token required"]],
     SysExit 1) /\
  (fi = Some "" \/ fs = Some "" ->
   main env (login fi fs) =
     ([Print stderr [Lit "Error: --client-id and --client-secret required"]],
      SysExit 1)).
Proof.
  intros H.
  repeat split; try intros H'; unfold main;
    repeat match goal with
           | |- context [truthy ?x] => destruct (truthy x) eqn:?
           end;
    try reflexivity; exfalso;
    repeat match goal with
           | H : _ \/ _ |- _ => destruct H
           end; subst; simpl in *; discriminate.
Qed.

End LoginCommand.

(** ** What the provider encodes, the listener decodes *)

Module RedirectRoundTrip.
Import Str Urllib UrllibQs Listener Effects GoogleAuth Spec Notions.








End RedirectRoundTrip.

(** ** The characters of what is sent *)

Module UrlSafety.
Import Str Urllib Effects GoogleAuth Spec Notions.

Local Ltac each_byte c := destruct c as [[] [] [] [] [] [] [] []].

Lemma all_chars_app (p : ascii -> bool) (a b : string) :
  all_chars p (a ++ b) = all_chars p a && all_chars p b.
Proof.
  induction a as [|c a IH]; [reflexivity|]. simpl. rewrite IH. apply andb_assoc.
Qed.

Lemma plus_quoter_safe (c : ascii) : all_chars url_char (plus_quoter c) = true.
Proof. each_byte c; reflexivity. Qed.

Lemma quote_plus_safe (s : string) : all_chars url_char (quote_plus s) = true.
Proof.
  rewrite UrlFacts.quote_plus_bytewise. induction s as [|c s IH]; [reflexivity|].
  simpl. now rewrite all_chars_app, plus_quoter_safe, IH.
Qed.

Lemma form_field_safe (kv : string * string) :
  all_chars url_char (form_field kv) = true.
Proof.
  unfold form_field. now rewrite !all_chars_app, !quote_plus_safe.
Qed.

Lemma urlencode_safe (fields : list (string * string)) :
  all_chars url_char (urlencode fields) = true.
Proof.
  unfold urlencode.
  change (fun kv : string * string => quote_plus (fst kv) ++ "=" ++ quote_plus (snd kv))
    with form_field.
  induction fields as [|kv fields IH]; [reflexivity|].
  destruct fields as [|kv' fields].
  - apply form_field_safe.
  - change (join "&" (map form_field (kv :: kv' :: fields)))
      with (form_field kv ++ "&" ++ join "&" (map form_field (kv' :: fields))).
    now rewrite !all_chars_app, form_field_safe, IH.
Qed.

(** X15.  Whatever bytes the client id, the client secret, the code and
    the refresh token are made of, the authorization URL and the form
    bodies of the two token requests consist of unreserved characters and
    the delimiters [: / ? & = % +] only: no space, quote, control or
    non-ASCII byte gets through unescaped. *)
Theorem sent_text_is_url_safe (client_id client_secret code refresh_token : string) :
  all_chars url_char (get_auth_url client_id) = true /\
  all_chars url_char (data (token_request (exchange_fields client_id client_secret code))) = true /\
  all_chars url_char (data (token_request (refresh_fields client_id client_secret refresh_token))) = true.
Proof.
  split; [|split; apply urlencode_safe].
  unfold get_auth_url. now rewrite !all_chars_app, urlencode_safe.
Qed.

End UrlSafety.

(** ** What the browser is told *)

Module Replies.
Import Str Urllib UrllibQs Listener Effects GoogleAuth Spec Notions.

(** X16.  The reply tells the browser what the listener recorded.  On a
    listener that holds nothing yet, the status is 200 exactly when a
    code is recorded and 404 exactly when the path is not [/callback];
    the status is one of 200, 400 and 404; and a request that records
    nothing leaves the listener as it was and gets neither a header nor a
    body. *)
Theorem reply_tells_the_result (request : ParseResult) :
  (status (snd (do_GET request idle)) = 200 <->
   exists code, auth_code (fst (do_GET request idle)) = Some code) /\
  (status (snd (do_GET request idle)) = 404 <-> path request <> "/callback") /\
  (status (snd (do_GET request idle)) = 200 \/
   status (snd (do_GET request idle)) = 400 \/
   status (snd (do_GET request idle)) = 404) /\
  (produces_result request = false ->
   fst (do_GET request idle) = idle /\
   headers (snd (do_GET request idle)) = [] /\
   body (snd (do_GET request idle)) = "").
Proof.
  unfold produces_result.
  destruct (TraceFacts.do_GET_cases request idle)
    as [[Hp G] | [[Hp [code [more [Hc G]]]] | [[Hp [_ [error [more [He G]]]]] | [Hp [_ [_ G]]]]]];
    rewrite G; simpl; repeat split; auto;
    try discriminate; try (intros [c Hcode]; discriminate);
    try (intros; eauto; fail); try (intros H; now elim H); try congruence.
Qed.

End Replies.

(** ** The access token of the API client *)

Module ApiToken.
Import Str Urllib Effects GoogleAuth GoogleApi Spec Notions.

Lemma bind_ret {A B} (a : A) (k : A -> M B) : bind (ret a) k = k a.
Proof. unfold bind, ret. now destruct (k a). Qed.

(** [get_access_token] with the three variables set, on each kind of
    answer. *)
Lemma get_access_token_on_answer (env : Env) (i s r : string) :
  truthy (environ env "GOOGLE_CLIENT_ID") = Some i ->
  truthy (environ env "GOOGLE_CLIENT_SECRET") = Some s ->
  truthy (environ env "GOOGLE_REFRESH_TOKEN") = Some r ->
  get_access_token env =
  let req := token_request (refresh_fields i s r) in
  match token_endpoint env req with
  | Response status body =>
      if (200 <=? status) && (status <? 300) then
        match Json.loads body with
        | Some (Json.Object members) =>
            match Dict.get "access_token" members with
            | Some v => ([UrlOpen req], Return v)
            | None => ([UrlOpen req], Raise (KeyError "access_token"))
            end
        | Some _ => ([UrlOpen req], Raise TypeError)
        | None => ([UrlOpen req], Raise JSONDecodeError)
        end
      else ([UrlOpen req; Print stderr [Lit ("Auth Error: " ++ body)]], SysExit 1)
  | Unreachable => ([UrlOpen req], Raise URLError)
  end.
Proof.
  intros Hi Hs Hr. unfold get_access_token, get_credentials.
  rewrite Hi, Hs, Hr, bind_ret. unfold urlopen, json_loads.
  change (mkRequest _ _ _ _) with (token_request (refresh_fields i s r)).
  cbv zeta.
  destruct (token_endpoint env _) as [status body|]; [|reflexivity].
  destruct ((200 <=? status) && (status <? 300)); [|reflexivity].
  cbn. destruct (Json.loads body) as [v|]; [|reflexivity].
  destruct v; try reflexivity.
  cbn. destruct (Dict.get "access_token" members); reflexivity.
Qed.


(** X18.  When one of the three variables is not set or is empty, the API
    client prints which variables to set to standard error and leaves with
    status 1 before any request is sent. *)
Theorem api_credentials_missing (env : Env) :
  truthy (environ env "GOOGLE_CLIENT_ID") = None \/
  truthy (environ env "GOOGLE_CLIENT_SECRET") = None \/
  truthy (environ env "GOOGLE_REFRESH_TOKEN") = None ->
  get_access_token env =
    ([Print stderr
        [Lit "Error: Set GOOGLE_CLIENT_ID, GOOGLE_CLIENT_SECRET, and GOOGLE_REFRESH_TOKEN"]],
     SysExit 1).
Proof.
  intros H. unfold get_access_token, get_credentials.
  destruct (truthy (environ env "GOOGLE_CLIENT_ID")) eqn:E1,
           (truthy (environ env "GOOGLE_CLIENT_SECRET")) eqn:E2,
           (truthy (environ env "GOOGLE_REFRESH_TOKEN")) eqn:E3;
    try reflexivity.
  exfalso. intuition discriminate.
Qed.

(** X19.  When the token endpoint answers the API client with a status
    outside 200..299, the client prints [Auth Error: ] and the response
    body to standard error and leaves with status 1. *)
Theorem api_token_rejected (env : Env)
  (client_id client_secret refresh_token : string) (status : Z) (body : string) :
  truthy (environ env "GOOGLE_CLIENT_ID") = Some client_id ->
  truthy (environ env "GOOGLE_CLIENT_SECRET") = Some client_secret ->
  truthy (environ env "GOOGLE_REFRESH_TOKEN") = Some refresh_token ->
  token_endpoint env
    (token_request (refresh_fields client_id client_secret refresh_token)) =
    Response status body ->
  ~ (200 <= status < 300) ->
  get_access_token env =
    ([ UrlOpen (token_request (refresh_fields client_id client_secret refresh_token));
       Print stderr [Lit ("Auth Error: " ++ body)] ], SysExit 1).
Proof.
  intros Hi Hs Hr Hanswer Hstatus.
  rewrite (get_access_token_on_answer env _ _ _ Hi Hs Hr). cbv zeta.
  now rewrite Hanswer, (TokenExchanger.out_of_range _ Hstatus).
Qed.

End ApiToken.

(** ** The Jira credentials *)

Module JiraCredentials.
Import Str Effects GoogleAuth JiraApi Spec Notions.

(** What [rstrip] removes is a run of the character. *)
Lemma rstrip_suffix (c : ascii) (s : string) :
  exists n, s = rstrip c s ++ copies n c.
Proof.
  induction s as [|d s [n IH]]; [now exists O|].
  simpl. destruct (rstrip c s) as [|e r] eqn:R.
  - destruct (Ascii.eqb d c) eqn:E.
    + apply Ascii.eqb_eq in E. subst d. exists (S n). simpl. now rewrite IH at 1.
    + exists n. simpl. now rewrite IH at 1.
  - exists n. simpl. simpl in IH. now rewrite IH at 1.
Qed.

(** What [rstrip] leaves does not end with the character. *)
Lemma rstrip_end (c : ascii) (s : string) : ends_with c (rstrip c s) = false.
Proof.
  induction s as [|d s IH]; [reflexivity|].
  simpl. destruct (rstrip c s) as [|e r] eqn:R.
  - destruct (Ascii.eqb d c) eqn:E; [reflexivity|]. simpl. exact E.
  - exact IH.
Qed.

Lemma rstrip_copies (c : ascii) (n : nat) : rstrip c (copies n c) = "".
Proof.
  induction n as [|n IH]; [reflexivity|].
  simpl. now rewrite IH, Ascii.eqb_refl.
Qed.

(** X20.  When [get_auth] returns, it has printed nothing; the domain it
    returns is not empty, does not end with a slash, and is the value of
    [JIRA_DOMAIN] without the slashes at its end; the e-mail address and
    the token are the values of their variables. *)
Theorem jira_domain_is_stripped (env : Env) (tr : list event)
  (domain email token : string) :
  get_auth env = (tr, Return (domain, email, token)) ->
  tr = [] /\
  is_empty domain = false /\
  ends_with "/" domain = false /\
  (exists n, environ_get env "JIRA_DOMAIN" = domain ++ copies n "/") /\
  email = environ_get env "JIRA_EMAIL" /\
  token = environ_get env "JIRA_API_TOKEN".
Proof.
  unfold get_auth.
  destruct (negb (is_empty (rstrip "/" (environ_get env "JIRA_DOMAIN")))) eqn:D;
    [|discriminate].
  destruct (negb (is_empty (environ_get env "JIRA_EMAIL"))); [|discriminate].
  destruct (negb (is_empty (environ_get env "JIRA_API_TOKEN"))); [|discriminate].
  simpl. intros H. injection H as <- <- <- <-.
  repeat split.
  - now apply negb_true_iff in D.
  - apply rstrip_end.
  - apply rstrip_suffix.
Qed.

(** X21.  A [JIRA_DOMAIN] that is missing, empty or made of slashes only
    counts as not set: [get_auth] prints its error to standard error and
    leaves with status 1, whatever the other two variables hold. *)
Theorem jira_domain_of_slashes_is_missing (env : Env) (n : nat) :
  environ_get env "JIRA_DOMAIN" = copies n "/" ->
  get_auth env =
    ([Print stderr
        [Lit "Error: Set JIRA_DOMAIN, JIRA_EMAIL, and JIRA_API_TOKEN environment variables"]],
     SysExit 1).
Proof.
  intros H. unfold get_auth. rewrite H, rstrip_copies. reflexivity.
Qed.

End JiraCredentials.

(** ** The further properties on concrete runs *)

Module Runs.
Import Str Urllib UrllibQs Listener Effects GoogleAuth GoogleApi JiraApi Spec Notions.

(** A login in which a favicon probe precedes the callback with the
    code. *)
Lemma login_exchanges_captured_code_witness :
  let env :=
    sample_env [target "/favicon.ico" ""; target "/callback" "code=4%2F0AbC"]
      (Response 200 bearer_body) in
  values_of "code" "code=4%2F0AbC" = ["4/0AbC"] /\
  network_calls (trace (run_auth_flow env "id" "secret")) =
    [token_request (exchange_fields "id" "secret" "4/0AbC")] /\
  data (token_request (exchange_fields "id" "secret" "4/0AbC")) =
    "client_id=id&client_secret=secret&code=4%2F0AbC&grant_type=authorization_code&redirect_uri=http%3A%2F%2Flocalhost%3A8089%2Fcallback".
Proof.
  intros env. split; [reflexivity|]. split; [|reflexivity].
  apply (LoginFlow.login_exchanges_captured_code env "id" "secret"
           [target "/favicon.ico" ""] (target "/callback" "code=4%2F0AbC") []
           "4/0AbC" []); try reflexivity.
  repeat constructor.
Defined.

(** A login that the user denies. *)
Lemma login_denied_exits_before_exchange_witness :
  let env :=
    sample_env
      [target "/callback" "error=access_denied&error_description=User+denied+access"]
      (Response 200 bearer_body) in
  result (main env (login (Some "id") (Some "secret"))) = SysExit 1 /\
  network_calls (trace (main env (login (Some "id") (Some "secret")))) = [] /\
  printed stderr (trace (main env (login (Some "id") (Some "secret")))) =
    [[Lit "Authorization failed: User denied access"]].
Proof.
  intros env. split; [reflexivity|].
  apply (LoginFlow.login_denied_exits_before_exchange env (Some "id") (Some "secret")
           "id" "secret" []
           (target "/callback" "error=access_denied&error_description=User+denied+access")
           [] "access_denied" []); try reflexivity.
  constructor.
Defined.


(** A loop that returns with the code of the specification's example. *)
Lemma waiting_loop_returns_usable_result_witness :
  (exists code,
      mkServer (Some "abc123") None = mkServer (Some code) None /\
      is_empty code = false) \/
  (exists reason,
      mkServer (Some "abc123") None = mkServer None (Some reason) /\
      is_empty reason = false).
Proof.
  apply (LoginFlow.waiting_loop_returns_usable_result
           [target "/callback" "code=abc123"]
           [Handled (target "/callback" "code=abc123")
              (mkReply 200 [("Content-Type", "text/html")] success_page)]
           (mkServer (Some "abc123") None)).
  reflexivity.
Defined.

(** [refresh] and [token] against an endpoint that answers 401. *)
Lemma refresh_rejected_exits_witness :
  let env := sample_env [] (Response 401 invalid_grant_body) in
  ~ (200 <= 401 < 300) /\
  main env (refresh (Some "id") (Some "secret") (Some "1//refresh")) =
    ([ UrlOpen (token_request (refresh_fields "id" "secret" "1//refresh"));
       Print stderr [Lit ("Error: " ++ invalid_grant_body)] ], SysExit 1).
Proof.
  intros env. split; [lia|].
  apply (RefreshCommands.refresh_rejected_exits env
           (Some "id") (Some "secret") (Some "1//refresh")
           "id" "secret" "1//refresh" 401 invalid_grant_body);
    try reflexivity; lia.
Defined.

(** [token] against an endpoint that answers 200 with an HTML page. *)
Lemma malformed_response_raises_witness :
  let env := sample_env [] (Response 200 "<html>Service unavailable</html>") in
  Json.loads "<html>Service unavailable</html>" = None /\
  main env (token (Some "id") (Some "secret") (Some "1//refresh")) =
    ([UrlOpen (token_request (refresh_fields "id" "secret" "1//refresh"))],
     Raise JSONDecodeError).
Proof.
  intros env. split; [reflexivity|].
  apply (RefreshCommands.malformed_response_raises env
           (Some "id") (Some "secret") (Some "1//refresh")
           "id" "secret" "1//refresh" 200 "<html>Service unavailable</html>");
    try reflexivity; lia.
Defined.

(** [refresh] without a network. *)
Lemma unreachable_endpoint_raises_witness :
  let env := sample_env [] Unreachable in
  main env (refresh (Some "id") (Some "secret") (Some "1//refresh")) =
    ([UrlOpen (token_request (refresh_fields "id" "secret" "1//refresh"))],
     Raise URLError).
Proof.
  intros env.
  apply (RefreshCommands.unreachable_endpoint_raises env
           (Some "id") (Some "secret") (Some "1//refresh")
           "id" "secret" "1//refresh"); reflexivity.
Defined.


(** [refresh] and [token] against an endpoint that answers 200 with a
    JSON array. *)
Lemma refresh_prints_any_json_witness :
  let env := sample_env [] (Response 200 "[1, 2]") in
  main env (refresh (Some "id") (Some "secret") (Some "1//refresh")) =
    ([ UrlOpen (token_request (refresh_fields "id" "secret" "1//refresh"));
       Print stdout [Dumps (Json.Array [Json.Int 1; Json.Int 2])] ], Return tt) /\
  main env (token (Some "id") (Some "secret") (Some "1//refresh")) =
    ([UrlOpen (token_request (refresh_fields "id" "secret" "1//refresh"))],
     Raise TypeError).
Proof.
  intros env.
  assert (R : 200 <= 200 < 300) by lia.
  destruct (RefreshCommands.refresh_prints_any_json env
              (Some "id") (Some "secret") (Some "1//refresh")
              "id" "secret" "1//refresh" 200 "[1, 2]"
              (Json.Array [Json.Int 1; Json.Int 2])
              eq_refl eq_refl eq_refl eq_refl R eq_refl) as [H1 H2].
  split; [exact H1|]. apply H2. discriminate.
Defined.

(** Flags on the command line while the environment holds other values,
    and no flag at all. *)
Lemma flags_override_environment_witness :
  let env :=
    mkEnv (google_environ "env-id" "env-secret" "env-refresh") true []
      (fun _ => Response 200 bearer_body) in
  network_calls
    (trace (main env (refresh (Some "id") (Some "secret") (Some "1//refresh")))) =
    [token_request (refresh_fields "id" "secret" "1//refresh")] /\
  network_calls (trace (main env (token None None None))) =
    [token_request (refresh_fields "env-id" "env-secret" "env-refresh")].
Proof.
  intros env. split.
  - apply (RefreshCommands.flags_override_environment env "id" "secret" "1//refresh");
      reflexivity.
  - apply (RefreshCommands.flags_override_environment env
             "env-id" "env-secret" "env-refresh"); reflexivity.
Defined.


(** An empty [--client-id] while [GOOGLE_CLIENT_ID] is set. *)
Lemma empty_flag_shadows_environment_witness :
  let env :=
    mkEnv (google_environ "env-id" "env-secret" "env-refresh") true []
      (fun _ => Response 200 bearer_body) in
  environ env "GOOGLE_CLIENT_ID" = Some "env-id" /\
  main env (token (Some "") None None) =
    ([Print stderr [Lit "Error: client-id, client-secret, and refresh-token required"]],
     SysExit 1).
Proof.
  intros env. split; [reflexivity|].
  apply (LoginCommand.empty_flag_shadows_environment env (Some "") None None).
  left. reflexivity.
Defined.




(** The API client without a refresh token in the environment. *)
Lemma api_credentials_missing_witness :
  let env :=
    mkEnv (google_environ "id" "secret" "") true [] (fun _ => Response 200 bearer_body) in
  get_access_token env =
    ([Print stderr
        [Lit "Error: Set GOOGLE_CLIENT_ID, GOOGLE_CLIENT_SECRET, and GOOGLE_REFRESH_TOKEN"]],
     SysExit 1).
Proof.
  intros env. apply (ApiToken.api_credentials_missing env).
  right. right. reflexivity.
Defined.

(** The API client against an endpoint that answers 400. *)
Lemma api_token_rejected_witness :
  let env :=
    mkEnv (google_environ "id" "secret" "1//refresh") true []
      (fun _ => Response 400 invalid_grant_body) in
  ~ (200 <= 400 < 300) /\
  get_access_token env =
    ([ UrlOpen (token_request (refresh_fields "id" "secret" "1//refresh"));
       Print stderr [Lit ("Auth Error: " ++ invalid_grant_body)] ], SysExit 1).
Proof.
  intros env. split; [lia|].
  apply (ApiToken.api_token_rejected env "id" "secret" "1//refresh"
           400 invalid_grant_body); try reflexivity; lia.
Defined.

(** A domain written with two slashes at its end. *)
Lemma jira_domain_is_stripped_witness :
  let env :=
    mkEnv (jira_environ "https://example.atlassian.net//" "me@example.com" "t0ken")
      true [] (fun _ => Unreachable) in
  get_auth env =
    ([], Return ("https://example.atlassian.net", "me@example.com", "t0ken")) /\
  ends_with "/" "https://example.atlassian.net" = false /\
  (exists n,
      environ_get env "JIRA_DOMAIN" = "https://example.atlassian.net" ++ copies n "/").
Proof.
  intros env. split; [reflexivity|].
  destruct (JiraCredentials.jira_domain_is_stripped env []
              "https://example.atlassian.net" "me@example.com" "t0ken" eq_refl)
    as [_ [_ [H1 [H2 _]]]].
  split; assumption.
Defined.

(** A domain that is three slashes. *)
Lemma jira_domain_of_slashes_is_missing_witness :
  let env :=
    mkEnv (jira_environ "///" "me@example.com" "t0ken") true [] (fun _ => Unreachable) in
  environ_get env "JIRA_DOMAIN" = copies 3 "/" /\
  get_auth env =
    ([Print stderr
        [Lit "Error: Set JIRA_DOMAIN, JIRA_EMAIL, and JIRA_API_TOKEN environment variables"]],
     SysExit 1).
Proof.
  intros env. split; [reflexivity|].
  apply (JiraCredentials.jira_domain_of_slashes_is_missing env 3). reflexivity.
Defined.

End Runs.

(** ** One attempt *)

Module SingleAttempt.
Import Str Urllib Effects GoogleAuth Spec Notions.

(** X22.  Neither token operation tries again.  Whatever the token
    endpoint answers, a success, a rejection, a body that is not JSON or
    nothing at all, [exchange_code] and [refresh_access_token] send
    exactly one request, a POST to the token endpoint with the form
    content type. *)
Theorem token_operations_send_one_request (env : Env)
  (client_id client_secret code refresh_token : string) :
  network_calls (trace (exchange_code env client_id client_secret code)) =
    [mkRequest "https://oauth2.googleapis.com/token"
       (urlencode (exchange_fields client_id client_secret code))
       [("Content-Type", "application/x-www-form-urlencoded")] "POST"] /\
  network_calls (trace (refresh_access_token env client_id client_secret refresh_token)) =
    [mkRequest "https://oauth2.googleapis.com/token"
       (urlencode (refresh_fields client_id client_secret refresh_token))
       [("Content-Type", "application/x-www-form-urlencoded")] "POST"].
Proof.
  split.
  - rewrite LoginCommand.exchange_on_answer. cbv zeta.
    destruct (token_endpoint env _) as [status body|]; [|reflexivity].
    destruct ((200 <=? status) && (status <? 300)); [|reflexivity].
    destruct (Json.loads body); reflexivity.
  - rewrite RefreshCommands.refresh_on_answer. cbv zeta.
    destruct (token_endpoint env _) as [status body|]; [|reflexivity].
    destruct ((200 <=? status) && (status <? 300)); [|reflexivity].
    destruct (Json.loads body); reflexivity.
Qed.

End SingleAttempt.
